(** * Kobo image downloader (app1.py): a shallow embedding and its properties

    The development follows the helper functions of [app1.py]
    ([find_urls_in_df], [detect_extension], [download_one]) and the
    dispatch / collection loops of the "Start download" handler.

    Conventions of the embedding.
    - A Python [str] is a [string] whose characters are the code points
      below 256; [str.lower] and [str.strip] are given on that range.
    - A Python [int] is a [Z]; [str(n)] of an int is stdpp's [pretty].
    - Library calls that the program makes but does not define
      ([filetype.guess], [mimetypes.guess_extension], [urlparse]) are the
      fields of a record [pylibs]; a call that can raise returns a
      [result].
    - Effects of [download_one] (GET requests, sleeps, file writes) are
      threaded through an explicit [world]; what the network answers to
      each GET and what the file system does at each write (the file is
      written, [open] raises, or the write raises part-way) are given
      by oracles, one answer per attempt. *)

From Stdlib Require Import Ascii Strings.Byte QArith Qcanon.
From stdpp Require Import base numbers list sorting strings gmap pretty.

Local Open Scope Z_scope.

(** ** Python strings *)

Module Py.

Definition ord (c : ascii) : N := N_of_ascii c.
Definition chr (n : N) : ascii := ascii_of_N n.

(** [str.isspace] on one character, for code points below 256:
    TAB..CR, FS..US, SPACE, NEL (0x85) and NBSP (0xA0). *)
Definition isspace (c : ascii) : bool :=
  let n := ord c in
  (((9 <=? n) && (n <=? 13)) || ((28 <=? n) && (n <=? 32))
   || (n =? 133) || (n =? 160))%N.

(** [str.lower] on one character, for code points below 256: the ASCII
    capitals and the Latin-1 capitals (0xC0..0xDE without 0xD7). *)
Definition lower_char (c : ascii) : ascii :=
  let n := ord c in
  if (((65 <=? n) && (n <=? 90))
      || ((192 <=? n) && (n <=? 222) && negb (n =? 215)))%N
  then chr (n + 32) else c.

Fixpoint lower (s : string) : string :=
  match s with
  | EmptyString => EmptyString
  | String c s' => String (lower_char c) (lower s')
  end.

(** [len(s)] *)
Definition len (s : string) : Z := Z.of_nat (String.length s).

(** [s.startswith(p)] *)
Fixpoint startswith (s p : string) {struct p} : bool :=
  match p, s with
  | EmptyString, _ => true
  | String a p', String b s' => if decide (a = b) then startswith s' p' else false
  | String _ _, EmptyString => false
  end.

(** [s.lstrip()] *)
Fixpoint lstrip (s : string) : string :=
  match s with
  | EmptyString => EmptyString
  | String c s' => if isspace c then lstrip s' else s
  end.

(** [s.rstrip()] *)
Fixpoint rstrip (s : string) : string :=
  match s with
  | EmptyString => EmptyString
  | String c s' =>
      match rstrip s' with
      | EmptyString => if isspace c then EmptyString else String c EmptyString
      | r => String c r
      end
  end.

(** [s.strip()] *)
Definition strip (s : string) : string := rstrip (lstrip s).

(** [s.lstrip(c)] for a one-character set [c] *)
Fixpoint lstrip_char (c : ascii) (s : string) : string :=
  match s with
  | EmptyString => EmptyString
  | String a s' => if decide (a = c) then lstrip_char c s' else s
  end.

(** [s.split(c)[0]]: the text before the first [c], all of [s] when [c]
    does not occur. *)
Fixpoint split_head (c : ascii) (s : string) : string :=
  match s with
  | EmptyString => EmptyString
  | String a s' => if decide (a = c) then EmptyString else String a (split_head c s')
  end.

(** The text after the last [c] in [s]; [None] when [c] does not occur
    ([s[s.rfind(c)+1:]] guarded by [s.rfind(c) >= 0]). *)
Fixpoint after_last (c : ascii) (s : string) : option string :=
  match s with
  | EmptyString => None
  | String a s' =>
      match after_last c s' with
      | Some t => Some t
      | None => if decide (a = c) then Some s' else None
      end
  end.

(** [c in s] *)
Fixpoint contains (c : ascii) (s : string) : bool :=
  match s with
  | EmptyString => false
  | String a s' => if decide (a = c) then true else contains c s'
  end.

(** Truthiness of a string: [bool(s)]. *)
Definition truthy (s : string) : bool :=
  match s with EmptyString => false | String _ _ => true end.

(** [all(c == c.lower() for c in s)]: no character of [s] is changed by
    [lower]. *)
Definition is_lowercase (s : string) : bool := bool_decide (lower s = s).

(** [os.path.splitext(p)[1]] of [posixpath]: the suffix of the last path
    component that starts at its last dot; leading dots of the component
    do not start an extension. *)
Definition splitext_ext (p : string) : string :=
  let base := default p (after_last "/" p) in
  match after_last "." (lstrip_char "." base) with
  | Some t => String "." t
  | None => EmptyString
  end.

(** [os.path.join(a, b)] of [posixpath], two arguments. *)
Definition endswith_slash (a : string) : bool :=
  match after_last "/" a with
  | Some EmptyString => true
  | _ => false
  end.

Definition path_join (a b : string) : string :=
  if startswith b "/" then b
  else if negb (truthy a) || endswith_slash a then a +:+ b
  else a +:+ "/" +:+ b.

(** [l.index(x)], with [len(l)] standing for "not found". *)
Fixpoint index (x : string) (l : list string) : nat :=
  match l with
  | [] => 0%nat
  | y :: l' => if decide (y = x) then 0%nat else S (index x l')
  end.

(** An insertion-ordered dictionary: the keys are kept in the order of
    their first insertion, assigning to an existing key keeps its place. *)
Abbreviation dict V := (list (string * V)).

Fixpoint dict_setitem {V} (k : string) (v : V) (d : dict V) : dict V :=
  match d with
  | [] => [(k, v)]
  | (k', v') :: d' =>
      if decide (k' = k) then (k', v) :: d' else (k', v') :: dict_setitem k v d'
  end.

(** [dict.fromkeys(keys)] (every value is [None]) *)
Definition dict_fromkeys (keys : list string) : dict unit :=
  fold_left (λ d k, dict_setitem k () d) keys [].

(** [list(d)] *)
Definition dict_keys {V} (d : dict V) : list string := d.*1.

(** [range(n)] *)
Definition range (n : Z) : list Z := seqZ 0 n.

End Py.

(** Exceptions: a call either returns or raises with a message
    ([str(e)]). *)
Inductive result (A : Type) : Type :=
  | Ok (a : A)
  | Raise (msg : string).
Arguments Ok {A} a.
Arguments Raise {A} msg.

(** ** The table and [find_urls_in_df] *)

(** A cell of the uploaded table as pandas holds it: text, a number, or a
    missing value. *)
Inductive cell : Type :=
  | CellText (s : string)
  | CellInt (n : Z)
  | CellMissing.

Record column : Type := Column { label : string; cells : list cell }.

(** [df.columns] are in table order, and [read_csv] / [read_excel] give
    every column its own label, so [df[col]] for [col] in [df.columns]
    runs over the columns themselves. *)
Abbreviation dataframe := (list column).

(** [df[col].astype(str).fillna("")]: every cell as text. *)
Definition astype_str (c : cell) : string :=
  match c with
  | CellText s => s
  | CellInt n => pretty n
  | CellMissing => "nan"
  end.

Definition series (col : column) : list string := astype_str <$> cells col.

(** The test of line 44. *)
Definition is_link (val : string) : bool :=
  Py.startswith (Py.lower val) "http://" || Py.startswith (Py.lower val) "https://".

Definition find_urls_in_df (df : dataframe) : list string :=
  fold_left
    (λ urls col,
       fold_left
         (λ urls val,
            let val := Py.strip val in
            if is_link val then urls ++ [val] else urls)
         (series col) urls)
    df [].

(** Lines 117-119 of the handler. *)
Definition long_enough (u : string) : bool := Py.truthy u && (6 <? Py.len u).

Definition unique_urls (df : dataframe) : list string :=
  let urls := find_urls_in_df df in
  let urls := filter (λ u, long_enough u = true) urls in
  Py.dict_keys (Py.dict_fromkeys urls).

(** Traversals of the table used to state the order of the result. *)

(** Column after column, each from its first row to its last. *)
Definition column_major (df : dataframe) : list string :=
  mjoin (series <$> df).

(** Row after row, each from its first column to its last (for a table
    whose columns all have [nrows] cells). *)
Definition row_major (nrows : nat) (df : dataframe) : list string :=
  mjoin ((λ i, omap (λ col, series col !! i) df) <$> seq 0 nrows).

(** The cell positions (column number, row number) in column-major order,
    the first column being numbered [j]. *)
Fixpoint positions_from (j : nat) (df : dataframe) : list (nat * nat) :=
  match df with
  | [] => []
  | col :: df' =>
      ((λ i, (j, i)) <$> seq 0 (length (cells col))) ++ positions_from (S j) df'
  end.

Definition positions (df : dataframe) : list (nat * nat) := positions_from 0 df.

(** Position [a] comes before position [b] in a column-major traversal. *)
Definition column_major_lt (a b : nat * nat) : Prop :=
  (a.1 < b.1)%nat ∨ (a.1 = b.1 ∧ (a.2 < b.2)%nat).

(** The distinct elements of a list, each at the place of its first
    occurrence. *)
Fixpoint first_occurrences (l : list string) : list string :=
  match l with
  | [] => []
  | x :: l' => x :: filter (λ y, y ≠ x) (first_occurrences l')
  end.

Definition text_at (df : dataframe) (p : nat * nat) : option string :=
  col ← df !! p.1; series col !! p.2.

Definition link_at (df : dataframe) (p : nat * nat) : option string :=
  val ← text_at df p;
  let val := Py.strip val in
  if is_link val then Some val else None.

(** ** Library calls *)

(** What the program takes from its libraries.
    - [filetype_guess content] is [filetype.guess(content).extension],
      [None] when [filetype.guess] finds no signature.
    - [guess_extension t] is [mimetypes.guess_extension(t)].
    - [urlparse_path url] is [urlparse(url).path]; [urlparse] raises
      [ValueError] on some texts (unbalanced brackets in the host). *)
Record pylibs : Type := PyLibs {
  filetype_guess : list Byte.byte → option string;
  guess_extension : string → option string;
  urlparse_path : string → result string;
}.

(** ** [detect_extension] *)

(** Lines 55-56: the value of [guessed], [None] also when the test of
    line 55 fails and line 56 is not reached. *)
Definition guessed_from (L : pylibs) (content_type : option string)
    : option string :=
  match content_type with
  | Some ct =>
      if Py.truthy ct
      then guess_extension L (Py.strip (Py.split_head ";" ct))
      else None
  | None => None
  end.

Definition detect_extension (L : pylibs)
    (content : list Byte.byte) (content_type : option string) (url : string)
    : result string :=
  (* Try filetype first *)
  match filetype_guess L content with
  | Some extension => Ok extension
  | None =>
      (* Try Content-Type *)
      match guessed_from L content_type with
      | Some (String _ _ as guessed) => Ok (Py.lstrip_char "." guessed)
      | _ =>
          (* Fallback to URL extension *)
          match urlparse_path L url with
          | Raise msg => Raise msg
          | Ok path =>
              let ext2 := Py.splitext_ext path in
              if Py.truthy ext2 && (Py.len ext2 <=? 6)
              then Ok (Py.lstrip_char "." ext2)
              else Ok "jpg"
          end
      end
  end.

(** ** [download_one] *)

(** What one [session.get(url, stream=True, timeout=timeout)] brings:
    the call raises, or it returns a response with a status code, an
    optional Content-Type header, and a body whose reading
    ([resp.content]) returns the bytes or raises. *)
Inductive get_result : Type :=
  | GetRaises (msg : string)
  | GetResponse (status_code : Z) (header_content_type : option string)
      (body : result (list Byte.byte)).

(** The effects that are logged: a GET issued, a sleep, and a file
    opened, written with [data] and closed without an exception. *)
Inductive event : Type :=
  | EvGet (url : string) (timeout : Z)
  | EvSleep (seconds : Qc)
  | EvWrite (path : string) (data : list Byte.byte).

(** The part of the outside world [download_one] acts on: the files on
    disk and the effects carried out so far, oldest first.  A write that
    raises is not in the log; what it leaves on disk is in [files]. *)
Record world : Type := World {
  files : gmap string (list Byte.byte);
  events : list event;
}.

Definition do_get (url : string) (timeout : Z) (w : world) : world :=
  World (files w) (events w ++ [EvGet url timeout]).

Definition do_sleep (seconds : Qc) (w : world) : world :=
  World (files w) (events w ++ [EvSleep seconds]).

(** What [with open(final_path, 'wb') as f: f.write(content)] brings:
    the file is written in full; or [open] raises (no such folder, no
    permission, a name the system refuses) and no file is touched; or the
    file is opened, by that created or emptied, and [f.write] or the
    closing of the file raises (disk full, ...) with the first [written]
    bytes of the data on disk. *)
Inductive write_result : Type :=
  | Written
  | OpenRaises (msg : string)
  | WriteRaises (written : nat) (msg : string).

(** Lines 78-79, [with open(path, 'wb') as f: f.write(data)]. *)
Definition do_write (path : string) (data : list Byte.byte)
    (wr : write_result) (w : world) : result unit * world :=
  match wr with
  | Written =>
      (Ok (), World (<[path := data]> (files w)) (events w ++ [EvWrite path data]))
  | OpenRaises msg => (Raise msg, w)
  | WriteRaises written msg =>
      (Raise msg, World (<[path := take written data]> (files w)) (events w))
  end.

(** The write leaves a file without having completed. *)
Definition partial (wr : write_result) : bool :=
  match wr with WriteRaises _ _ => true | _ => false end.

(** The float [0.5 * (attempt + 1)] *)
Definition backoff (attempt : Z) : Qc := (Q2Qc (1 # 2)%Q * Qc_of_Z (attempt + 1))%Qc.

(** How the body of the [for] loop ends: by [return True, ...], or by
    falling through to the sleep with a new [last_exc]. *)
Inductive attempt_end : Type :=
  | Returned (final_name : string)
  | Failed (last_exc : string).

(** Lines 70-84: the [try] block of one attempt, given what the GET of
    this attempt brings and what the writing of the file brings if it is
    reached.  Every exception raised inside the block, that of [open] and
    [f.write] too, is caught by line 83 and becomes [last_exc]. *)
Definition attempt_body (L : pylibs) (url dest_name folder : string)
    (timeout : Z) (got : get_result) (wr : write_result) (w : world)
    : attempt_end * world :=
  let w := do_get url timeout w in
  match got with
  | GetRaises msg => (Failed msg, w)
  | GetResponse status_code header body =>
      if decide (status_code = 200) then
        match body with
        | Raise msg => (Failed msg, w)
        | Ok content =>
            let content_type := default "" header in
            match detect_extension L content (Some content_type) url with
            | Raise msg => (Failed msg, w)
            | Ok ext =>
                let final_name := dest_name +:+ "." +:+ ext in
                let final_path := Py.path_join folder final_name in
                match do_write final_path content wr w with
                | (Ok _, w) => (Returned final_name, w)
                | (Raise msg, w) => (Failed msg, w)
                end
            end
        end
      else (Failed ("HTTP " +:+ pretty status_code), w)
  end.

(** The value returned by [download_one]: [(success, final_name, error)]. *)
Definition fetched : Type := bool * option string * option string.

(** Lines 69-86: the loop over [range(max_retries+1)]; [session k] is what
    the GET of attempt [k] brings, [storage k] what the writing of the
    file brings in attempt [k]. *)
Fixpoint download_loop (L : pylibs) (session : Z → get_result)
    (storage : Z → write_result)
    (url dest_name folder : string) (timeout : Z)
    (attempts : list Z) (last_exc : option string) (w : world)
    : fetched * world :=
  match attempts with
  | [] => ((false, None, last_exc), w)
  | attempt :: rest =>
      match attempt_body L url dest_name folder timeout
              (session attempt) (storage attempt) w with
      | (Returned final_name, w) => ((true, Some final_name, None), w)
      | (Failed last_exc, w) =>
          let w := do_sleep (backoff attempt) w in
          download_loop L session storage url dest_name folder timeout rest
            (Some last_exc) w
      end
  end.

Definition download_one (L : pylibs) (session : Z → get_result)
    (storage : Z → write_result)
    (url dest_name folder : string) (timeout max_retries : Z) (w : world)
    : fetched * world :=
  download_loop L session storage url dest_name folder timeout
    (Py.range (max_retries + 1)) None w.

(** Views of the effect log. *)
Definition gets (w : world) : list (string * Z) :=
  omap (λ e, match e with EvGet u t => Some (u, t) | _ => None end) (events w).

Definition sleeps (w : world) : list Qc :=
  omap (λ e, match e with EvSleep s => Some s | _ => None end) (events w).

Definition writes (w : world) : list (string * list Byte.byte) :=
  omap (λ e, match e with EvWrite p d => Some (p, d) | _ => None end) (events w).

(** The failure reason of an attempt as line 82 and line 84 record it,
    for an attempt that ends by a non-200 status or by an exception of
    the transport ([session.get] or the reading of the body). *)
Definition transport_failure (got : get_result) : option string :=
  match got with
  | GetRaises msg => Some msg
  | GetResponse status_code _ body =>
      if decide (status_code = 200)
      then match body with Raise msg => Some msg | Ok _ => None end
      else Some ("HTTP " +:+ pretty status_code)
  end.

(** The effects of attempts that fail one after the other: the GET of
    each, followed by its back-off sleep. *)
Definition failure_trace (url : string) (timeout : Z) (attempts : list Z)
    : list event :=
  attempts ≫= λ attempt, [EvGet url timeout; EvSleep (backoff attempt)].

(** [path] names the file [name] directly under [folder]. *)
Definition in_folder (folder name path : string) : Prop :=
  path = folder +:+ name ∨ path = folder +:+ "/" +:+ name.

(** The paths a call can open: [os.path.join(folder, f"{dest_name}.{ext}")]
    for an extension [ext]. *)
Definition own_path (folder dest_name path : string) : Prop :=
  ∃ ext, path = Py.path_join folder (dest_name +:+ "." +:+ ext).

(** ** The "Start download" handler: dispatch and collection *)

(** A call handed to the executor by [executor.submit(download_one,
    session, url, dest_name, folder_name, timeout, max_retries)]; the
    future it returns is named by its place in the queue of submitted
    calls. *)
Record call : Type := Call { call_url : string; call_dest_name : string }.

Record dispatched : Type := Dispatched {
  counter : Z;
  submitted : list call;
  future_to_info : gmap nat string;
}.

(** Lines 146-150, one turn of the loop. *)
Definition dispatch_step (st : dispatched) (url : string) : dispatched :=
  let counter := counter st + 1 in
  let dest_name := "bill " +:+ pretty counter in
  let future := length (submitted st) in
  Dispatched counter
    (submitted st ++ [Call url dest_name])
    (<[future := url]> (future_to_info st)).

(** Lines 142-150. *)
Definition dispatch (unique_urls : list string) (start_index : Z) : dispatched :=
  fold_left dispatch_step unique_urls (Dispatched (start_index - 1) [] ∅).

(** An entry of [results]: [(url, final_name, ok, error)]. *)
Definition outcome : Type := string * option string * bool * option string.

Record collected : Type := Collected {
  done : Z;
  log_lines : list string;
  results : list outcome;
  disk : world;
}.

(** Lines 155-165, one turn of the loop over [as_completed]: [future] is
    the future that has just completed, [net future] is what the GETs of
    its call brought and [store future] what its writing of the file
    brought.  The effects of a call are entered into [disk] when its
    future is collected. *)
Definition collect_step (L : pylibs) (net : nat → Z → get_result)
    (store : nat → Z → write_result)
    (folder : string) (timeout max_retries : Z)
    (d : dispatched) (st : collected) (future : nat) : collected :=
  match future_to_info d !! future, submitted d !! future with
  | Some url, Some c =>
      let '((success, final_name, error), w) :=
        download_one L (net future) (store future) (call_url c)
          (call_dest_name c) folder timeout max_retries (disk st) in
      let done := done st + 1 in
      if success then
        Collected done
          (log_lines st ++ ["OK: " +:+ url +:+ " -> " +:+ default "None" final_name])
          (results st ++ [(url, final_name, true, None)]) w
      else
        Collected done
          (log_lines st ++ ["FAIL: " +:+ url +:+ " -> " +:+ default "None" error])
          (results st ++ [(url, None, false, error)]) w
  | _, _ => st (* not reached: [as_completed] yields submitted futures only *)
  end.

(** Lines 141-168: [completion] is the order in which [as_completed]
    yields the futures.  The handler does nothing of this when
    [unique_urls] is empty (line 127). *)
Definition start_download (L : pylibs) (net : nat → Z → get_result)
    (store : nat → Z → write_result)
    (unique_urls : list string) (folder : string)
    (start_index timeout max_retries : Z)
    (completion : list nat) (w : world) : option collected :=
  match unique_urls with
  | [] => None
  | _ :: _ =>
      let d := dispatch unique_urls start_index in
      Some (fold_left (collect_step L net store folder timeout max_retries d)
              completion (Collected 0 [] [] w))
  end.

(** The entry that the collection loop adds for [future]: the call's
    return value does not depend on the files on disk, so it is read off
    a run of the call in an empty world. *)
Definition future_outcome (L : pylibs) (net : nat → Z → get_result)
    (store : nat → Z → write_result)
    (folder : string) (timeout max_retries : Z)
    (d : dispatched) (future : nat) : option outcome :=
  match future_to_info d !! future, submitted d !! future with
  | Some url, Some c =>
      let '(success, final_name, error) :=
        (download_one L (net future) (store future) (call_url c)
           (call_dest_name c) folder timeout max_retries (World ∅ [])).1 in
      Some (if success then (url, final_name, true, None)
            else (url, None, false, error))
  | _, _ => None
  end.

Definition outcome_url (r : outcome) : string := r.1.1.1.
Definition outcome_name (r : outcome) : option string := r.1.1.2.
Definition outcome_ok (r : outcome) : bool := r.1.2.

(** Lines 171-172 and 187. *)
Definition succ (results : list outcome) : Z :=
  Z.of_nat (length (filter (λ r, outcome_ok r = true) results)).

Definition fail (results : list outcome) : Z :=
  Z.of_nat (length (filter (λ r, outcome_ok r = false) results)).

Definition succeeded_links (results : list outcome) : list string :=
  outcome_url <$> filter (λ r, outcome_ok r = true) results.

Definition failed_links (results : list outcome) : list string :=
  outcome_url <$> filter (λ r, outcome_ok r = false) results.

(** ** The resolution chain of the sniffer, rule by rule

    The four rules of the design, each an optional answer, and the
    resolution that takes the first answer. *)

Module Chain.










End Chain.

(** ** What is assumed of the libraries

    The extensions in the tables of [filetype] and [mimetypes] are
    non-empty texts, in whatever letter case the table has them (the
    tables hold ["Z"] and [".CQL"]); [filetype] gives them without a dot,
    [mimetypes.guess_extension] with one dot in front. *)

Definition plain_extension (e : string) : Prop :=
  e ≠ "" ∧ Py.startswith e "." = false.

Record libs_ok (L : pylibs) : Prop := LibsOk {
  filetype_extension :
    ∀ content e, filetype_guess L content = Some e → plain_extension e;
  mimetypes_extension :
    ∀ t g, guess_extension L t = Some g →
           ∃ e, g = String "." e ∧ plain_extension e;
}.

(** ** A small instance of the libraries

    Enough of [filetype], [mimetypes] and [urllib.parse] to run the
    program on examples: three image signatures, a few media types, and
    the splitting of a URL into scheme, host, path, query and fragment as
    [urlsplit] does it (without its clean-up of control characters). *)

Module Sample.

(** The first [n] bytes of [content], as numbers. *)
Definition head_bytes (n : nat) (content : list Byte.byte) : list N :=
  Byte.to_N <$> take n content.

Definition guess (content : list Byte.byte) : option string :=
  if bool_decide (head_bytes 3 content = [255; 216; 255]%N) then Some "jpg"
  else if bool_decide (head_bytes 4 content = [137; 80; 78; 71]%N) then Some "png"
  else if bool_decide (head_bytes 3 content = [71; 73; 70]%N) then Some "gif"
  else None.

Definition types_map : list (string * string) :=
  [("image/jpeg", ".jpg"); ("image/png", ".png"); ("image/gif", ".gif");
   ("image/webp", ".webp"); ("application/pdf", ".pdf"); ("text/html", ".html")].

Definition mime_guess_extension (t : string) : option string :=
  (λ hit : nat * (string * string), hit.2.2)
    <$> list_find (λ e, e.1 = Py.lower t) types_map.

Definition scheme_char (c : ascii) : bool :=
  let n := Py.ord c in
  (((97 <=? n) && (n <=? 122)) || ((65 <=? n) && (n <=? 90))
   || ((48 <=? n) && (n <=? 57))
   || (n =? 43) || (n =? 45) || (n =? 46))%N.

Definition ascii_alpha (c : ascii) : bool :=
  let n := Py.ord c in
  (((97 <=? n) && (n <=? 122)) || ((65 <=? n) && (n <=? 90)))%N.

(** [(url[:i], url[i+1:])] for the first colon at [i], when all of
    [url[:i]] are scheme characters. *)
Fixpoint scan_scheme (url : string) : option (string * string) :=
  match url with
  | EmptyString => None
  | String c rest =>
      if decide (c = ":"%char) then Some (EmptyString, rest)
      else if scheme_char c
           then '(s, r) ← scan_scheme rest; Some (String c s, r)
           else None
  end.

Definition split_scheme (url : string) : string * string :=
  match url with
  | String c _ =>
      if ascii_alpha c then
        match scan_scheme url with
        | Some (s, rest) => (Py.lower s, rest)
        | None => (EmptyString, url)
        end
      else (EmptyString, url)
  | EmptyString => (EmptyString, url)
  end.

(** [_splitnetloc]: the host part ends at the first of [/], [?], [#]. *)
Fixpoint split_netloc (s : string) : string * string :=
  match s with
  | EmptyString => (EmptyString, EmptyString)
  | String c rest =>
      if decide (c = "/"%char ∨ c = "?"%char ∨ c = "#"%char)
      then (EmptyString, s)
      else let '(n, r) := split_netloc rest in (String c n, r)
  end.

(** [_splitparams]: the last path segment is cut at its first [;]. *)
Fixpoint cut_params (p : string) : string :=
  match p with
  | EmptyString => EmptyString
  | String c rest =>
      if Py.contains "/" rest then String c (cut_params rest)
      else if decide (c = "/"%char) then String c (Py.split_head ";" rest)
      else Py.split_head ";" p
  end.

Definition uses_params : list string :=
  [""; "ftp"; "hdl"; "prospero"; "http"; "imap"; "https"; "shttp"; "rtsp";
   "rtspu"; "sip"; "sips"; "mms"; "sftp"; "tel"].

(** [urlparse(url).path].  After the host is split off, [urlsplit] has
    [if ('[' in netloc and ']' not in netloc) or (']' in netloc and '['
    not in netloc): raise ValueError("Invalid IPv6 URL")]; [urlparse] then
    cuts the parameters off the path for the schemes of [uses_params]. *)
Definition url_path (url : string) : result string :=
  let '(scheme, rest) := split_scheme url in
  let '(netloc, rest) :=
    match rest with
    | String "/"%char (String "/"%char r) => split_netloc r
    | _ => (EmptyString, rest)
    end in
  if xorb (Py.contains "[" netloc) (Py.contains "]" netloc)
  then Raise "Invalid IPv6 URL"
  else
    let rest := Py.split_head "#" rest in
    let rest := Py.split_head "?" rest in
    if bool_decide (scheme ∈ uses_params) then Ok (cut_params rest) else Ok rest.

Definition libs : pylibs := PyLibs guess mime_guess_extension url_path.

(** Tables and oracles for the examples. *)

Definition jpeg_bytes : list Byte.byte :=
  [Byte.xff; Byte.xd8; Byte.xff; Byte.xe0; Byte.x00; Byte.x10].

Definition two_by_two : dataframe :=
  [Column "front" [CellText "http://a/1"; CellText "http://a/2"];
   Column "back" [CellText "http://a/3"; CellText "http://a/4"]].

Definition mixed : dataframe :=
  [Column "link" [CellText "http://a/x.jpg"; CellText " HTTP://a/x.jpg ";
                  CellText "not a url"; CellInt 7; CellMissing];
   Column "more" [CellText "https://b/y"; CellText "http://a/x.jpg"]].

Definition always (got : get_result) : Z → get_result := λ _, got.
(** Three failures in a row: a 404, a time-out of the transport, a 503. *)
Definition three_failures (attempt : Z) : get_result :=
  if decide (attempt = 0) then GetResponse 404 None (Ok [])
  else if decide (attempt = 1) then GetRaises "Read timed out."
  else GetResponse 503 (Some "text/html") (Ok []).

(** A 500 on the first attempt, then the JPEG. *)
Definition second_time_lucky (attempt : Z) : get_result :=
  if decide (attempt = 0) then GetResponse 500 None (Ok [])
  else GetResponse 200 (Some "image/jpeg") (Ok jpeg_bytes).


Definition empty_world : world := World ∅ [].

(** A disk on which every file can be written. *)
Definition writable : Z → write_result := λ _, Written.

(** A destination folder that does not exist: [open] raises. *)
Definition no_folder : Z → write_result :=
  λ _, OpenRaises "[Errno 2] No such file or directory".

(** A disk that fills up after two bytes of each file. *)
Definition disk_full : Z → write_result :=
  λ _, WriteRaises 2 "[Errno 28] No space left on device".

(** Three links; the second one is answered by a 404 at every attempt,
    the others by the JPEG. *)
Definition links : list string := ["http://a/1.png"; "http://a/2"; "http://a/3"].

(** The table that holds these links in one column, with a repetition
    and some white space. *)
Definition links_table : dataframe :=
  [Column "photo" [CellText "http://a/1.png"; CellText " http://a/2"; CellInt 3;
                   CellText "http://a/3 "; CellText "http://a/1.png"]].

Definition net (future : nat) : Z → get_result :=
  if decide (future = 1%nat) then always (GetResponse 404 None (Ok []))
  else always (GetResponse 200 None (Ok jpeg_bytes)).

Definition store (future : nat) : Z → write_result := writable.

(** The disk fills up during the first attempt of the third link. *)
Definition store_full_once (future : nat) (attempt : Z) : write_result :=
  if decide (future = 2%nat ∧ attempt = 0)
  then WriteRaises 2 "[Errno 28] No space left on device" else Written.

End Sample.

(** ** After the run: log, counts, archive, failure table *)

(** The reason an attempt leaves in [last_exc], whatever makes it fail: the
    GET or the reading of the body raising, a status other than 200,
    [detect_extension] raising on a 200, or the opening or the writing of
    the file raising; [None] for an attempt that returns. *)
Definition attempt_failure (L : pylibs) (url : string) (got : get_result)
    (wr : write_result) : option string :=
  match got with
  | GetRaises msg => Some msg
  | GetResponse status_code header body =>
      if decide (status_code = 200) then
        match body with
        | Raise msg => Some msg
        | Ok content =>
            match detect_extension L content (Some (default "" header)) url with
            | Raise msg => Some msg
            | Ok _ =>
                match wr with
                | Written => None
                | OpenRaises msg | WriteRaises _ msg => Some msg
                end
            end
        end
      else Some ("HTTP " +:+ pretty status_code)
  end.

(** The seconds slept so far. *)
Definition total_sleep (w : world) : Qc := foldr Qcplus 0%Qc (sleeps w).

(** Lines 161 and 164: the log line that goes with an entry of [results]. *)
Definition log_line (r : outcome) : string :=
  let '(url, final_name, ok, error) := r in
  if ok then "OK: " +:+ url +:+ " -> " +:+ default "None" final_name
  else "FAIL: " +:+ url +:+ " -> " +:+ default "None" error.

(** Lines 178-182, one turn of the loop: the archive member written for
    an entry of [results], if any.  [os.path.exists(fpath)] is the
    presence of [fpath] among the files, and [zipf.write(fpath, fname)]
    stores the bytes of that file under the name [fname]. *)
Definition zip_member (folder : string) (files : gmap string (list Byte.byte))
    (r : outcome) : option (string * list Byte.byte) :=
  let '(_, fname, ok, _) := r in
  match fname with
  | Some fname =>
      if ok && Py.truthy fname then
        let fpath := Py.path_join folder fname in
        match files !! fpath with
        | Some data => Some (fname, data)
        | None => None
        end
      else None
  | None => None
  end.

(** Lines 176-183: the members of the archive, in the order they are
    written. *)
Definition build_zip (folder : string) (results : list outcome)
    (files : gmap string (list Byte.byte)) : list (string * list Byte.byte) :=
  omap (zip_member folder files) results.

(** Lines 187-188: the table of the failed links. *)
Definition fail_df (results : list outcome) : dataframe :=
  [Column "failed_url" (CellText <$> failed_links results)].

(** Lines 170-191: what is shown and offered after the run: the two
    counts, the archive when there is a success, the table of the failed
    links when there is a failure. *)
Record report : Type := Report {
  shown_succ : Z;
  shown_fail : Z;
  zip_download : option (list (string * list Byte.byte));
  csv_download : option dataframe;
}.

Definition finish (folder : string) (st : collected) : report :=
  let succ := succ (results st) in
  let fail := fail (results st) in
  Report succ fail
    (if 0 <? succ
     then Some (build_zip folder (results st) (files (disk st))) else None)
    (if 0 <? fail then Some (fail_df (results st)) else None).

(** The paths a call of the [i]-th link can write under [folder], for
    numbering from [start_index]. *)
Definition path_of_link (folder : string) (start_index : Z) (i : nat)
    (path : string) : Prop :=
  ∃ ext, path = Py.path_join folder
                  ("bill " +:+ pretty (start_index + Z.of_nat i) +:+ "." +:+ ext).

(** The cells of a column that hold text. *)
Definition is_text (c : cell) : bool :=
  match c with CellText _ => true | _ => false end.

Definition text_only (col : column) : column :=
  Column (label col) (filter (λ c, is_text c = true) (cells col)).

(** The characters of the decimal form of an integer. *)
Definition decimal_chars : list ascii :=
  String.list_ascii_of_string "0123456789-".

(** * Properties *)

(** ** Strings *)

Section strings.

Lemma lower_length s : String.length (Py.lower s) = String.length s.
Proof. induction s as [|c s IH]; simpl; congruence. Qed.

Lemma startswith_length s p :
  Py.startswith s p = true → (String.length p ≤ String.length s)%nat.
Proof.
  revert s. induction p as [|a p IH]; intros [|b s]; simpl; try lia; try done.
  case_decide; [|done]. intros Hp%IH. lia.
Qed.

Lemma is_link_length val : is_link val = true → (7 ≤ String.length val)%nat.
Proof.
  unfold is_link. rewrite orb_true_iff.
  intros [H%startswith_length | H%startswith_length];
    rewrite lower_length in H; simpl in H; lia.
Qed.

Lemma rstrip_idem s : Py.rstrip (Py.rstrip s) = Py.rstrip s.
Proof.
  induction s as [|c s IH]; [done|]. simpl.
  destruct (Py.rstrip s) as [|d r] eqn:E.
  - destruct (Py.isspace c) eqn:Ec; simpl; [done|]. by rewrite Ec.
  - change (Py.rstrip (String c (String d r)))
      with (match Py.rstrip (String d r) with
            | EmptyString => if Py.isspace c then EmptyString else String c EmptyString
            | String _ _ as r' => String c r'
            end).
    by rewrite IH.
Qed.

Lemma lstrip_head s :
  Py.lstrip s = "" ∨ ∃ c t, Py.lstrip s = String c t ∧ Py.isspace c = false.
Proof.
  induction s as [|c s IH]; simpl; [by left|].
  destruct (Py.isspace c) eqn:E; [done|]. right. eauto.
Qed.

Lemma rstrip_head c t :
  Py.isspace c = false → ∃ r, Py.rstrip (String c t) = String c r.
Proof.
  intros E. simpl. destruct (Py.rstrip t); rewrite ?E; eauto.
Qed.

Lemma lstrip_nonspace c t :
  Py.isspace c = false → Py.lstrip (String c t) = String c t.
Proof. intros E. simpl. by rewrite E. Qed.

(** Trimming a trimmed text changes nothing. *)
Lemma strip_idem s : Py.strip (Py.strip s) = Py.strip s.
Proof.
  unfold Py.strip. destruct (lstrip_head s) as [->|(c & t & -> & Hc)]; [done|].
  destruct (rstrip_head c t Hc) as [r Hr].
  rewrite Hr, lstrip_nonspace, <-Hr by done. apply rstrip_idem.
Qed.

Lemma after_last_None c s : Py.after_last c s = None → Py.contains c s = false.
Proof.
  induction s as [|a s IH]; simpl; [done|].
  destruct (Py.after_last c s); [done|]. case_decide; [done|]. auto.
Qed.

Lemma after_last_Some c s t : Py.after_last c s = Some t → Py.contains c t = false.
Proof.
  revert t. induction s as [|a s IH]; simpl; intros t; [done|].
  destruct (Py.after_last c s) as [t'|] eqn:E.
  - intros [= <-]. auto.
  - case_decide; [|done]. intros [= <-]. by apply after_last_None.
Qed.

Lemma lstrip_char_no_contains c s :
  Py.contains c s = false → Py.lstrip_char c s = s.
Proof. destruct s as [|a s]; simpl; [done|]. by case_decide. Qed.

(** The extension [splitext] gives is empty, or a dot followed by a text
    without dots. *)
Lemma splitext_ext_shape p :
  Py.splitext_ext p = ""
  ∨ ∃ t, Py.splitext_ext p = String "." t ∧ Py.contains "." t = false.
Proof.
  unfold Py.splitext_ext.
  destruct (Py.after_last "." _) as [t|] eqn:E; [right|by left].
  exists t. split; [done|]. by eapply after_last_Some.
Qed.

End strings.

(** ** The extractor *)

Section extractor.

Lemma scan_series vals acc :
  fold_left
    (λ urls val,
       let val := Py.strip val in if is_link val then urls ++ [val] else urls)
    vals acc
  = acc ++ filter (λ v, is_link v = true) (Py.strip <$> vals).
Proof.
  revert acc. induction vals as [|v vals IH]; intros acc; simpl.
  - by rewrite app_nil_r.
  - rewrite IH, filter_cons. destruct (is_link (Py.strip v)) eqn:E.
    + rewrite decide_True by done. by rewrite <-app_assoc.
    + rewrite decide_False by done. done.
Qed.

Lemma scan_columns df acc :
  fold_left
    (λ urls col,
       fold_left
         (λ urls val,
            let val := Py.strip val in if is_link val then urls ++ [val] else urls)
         (series col) urls)
    df acc
  = acc ++ filter (λ v, is_link v = true) (Py.strip <$> column_major df).
Proof.
  revert acc. induction df as [|col df IH]; intros acc; simpl.
  - by rewrite app_nil_r.
  - rewrite IH, scan_series. unfold column_major. simpl.
    by rewrite fmap_app, filter_app, app_assoc.
Qed.

(** The raw list is the column-major list of trimmed cell texts, kept
    where the test of line 44 holds. *)
Lemma find_urls_in_df_filter df :
  find_urls_in_df df
  = filter (λ v, is_link v = true) (Py.strip <$> column_major df).
Proof. unfold find_urls_in_df. by rewrite scan_columns. Qed.

Lemma find_urls_in_df_elem u df :
  u ∈ find_urls_in_df df → is_link u = true ∧ Py.strip u = u.
Proof.
  rewrite find_urls_in_df_filter, list_elem_of_filter, list_elem_of_fmap.
  intros [Hl (v & -> & _)]. split; [done|]. apply strip_idem.
Qed.

Lemma filter_all {A} (P : A → Prop) `{∀ x, Decision (P x)} (l : list A) :
  Forall P l → filter P l = l.
Proof.
  induction 1 as [|x l Hx _ IH]; [done|].
  by rewrite filter_cons_True, IH.
Qed.

Lemma long_enough_link u : is_link u = true → long_enough u = true.
Proof.
  intros Hl%is_link_length. unfold long_enough, Py.len.
  destruct u; simpl in *; [lia|]. apply Z.ltb_lt. lia.
Qed.

Lemma length_filter_id df :
  filter (λ u, long_enough u = true) (find_urls_in_df df) = find_urls_in_df df.
Proof.
  apply filter_all, Forall_forall. intros u [Hl _]%find_urls_in_df_elem.
  by apply long_enough_link.
Qed.

(** C10. The length filter of line 118 changes nothing: every text that
    [find_urls_in_df] returns is trimmed, passes the prefix test, has at
    least 7 characters, and so the filtered list is the list itself. *)
Theorem length_filter_identity df :
  (∀ u, u ∈ find_urls_in_df df →
        is_link (Py.strip u) = true ∧ 7 ≤ Py.len u)
  ∧ filter (λ u, long_enough u = true) (find_urls_in_df df) = find_urls_in_df df.
Proof.
  split.
  - intros u [Hl Hs]%find_urls_in_df_elem. rewrite Hs. split; [done|].
    apply is_link_length in Hl. unfold Py.len. lia.
  - apply length_filter_id.
Qed.

End extractor.

(** ** The order of the traversal *)

Section traversal.

Lemma seq_sorted j n : StronglySorted lt (seq j n).
Proof.
  revert j. induction n as [|n IH]; intros j; simpl; constructor; [done|].
  apply Forall_forall. intros k [? ?]%elem_of_seq. lia.
Qed.

Lemma positions_from_elem j df c r :
  (c, r) ∈ positions_from j df
  ↔ (j ≤ c)%nat
    ∧ ∃ col, df !! (c - j)%nat = Some col ∧ (r < length (cells col))%nat.
Proof.
  revert j. induction df as [|col df IH]; intros j; simpl.
  - split; [by intros ?%elem_of_nil|]. by intros (_ & ? & ? & _).
  - rewrite elem_of_app, list_elem_of_fmap, IH. split.
    + intros [(i & [= -> ->] & [_ Hi]%elem_of_seq) | (Hle & col' & Hc & Hr)].
      * split; [lia|]. exists col. by rewrite Nat.sub_diag.
      * split; [lia|]. exists col'. split; [|done].
        by replace (c - j)%nat with (S (c - S j)) by lia.
    + intros (Hle & col' & Hc & Hr).
      destruct (decide (c = j)) as [->|Hne].
      * left. rewrite Nat.sub_diag in Hc. injection Hc as <-.
        exists r. split; [done|]. apply elem_of_seq. lia.
      * right. split; [lia|]. exists col'. split; [|done].
        by replace (c - j)%nat with (S (c - S j)) in Hc by lia.
Qed.

Lemma positions_from_sorted j df :
  StronglySorted column_major_lt (positions_from j df).
Proof.
  revert j. induction df as [|col df IH]; intros j; simpl; [constructor|].
  apply StronglySorted_app_2; [| |apply IH].
  - intros a [c r] (i & -> & _)%list_elem_of_fmap [Hle _]%positions_from_elem.
    left. simpl. lia.
  - eapply StronglySorted_fmap; [|apply seq_sorted].
    intros x y Hxy. right. simpl. done.
Qed.

Lemma column_major_lt_irrefl a : ¬ column_major_lt a a.
Proof. unfold column_major_lt. lia. Qed.

Lemma sorted_NoDup (l : list (nat * nat)) :
  StronglySorted column_major_lt l → NoDup l.
Proof.
  induction 1 as [|a l _ IH Hall]; constructor; [|done].
  intros Hin. rewrite Forall_forall in Hall.
  by apply (column_major_lt_irrefl a), Hall.
Qed.

Lemma omap_lookup_seq {A B} (f : A → option B) (l : list A) :
  omap (λ i, l !! i ≫= f) (seq 0 (length l)) = omap f l.
Proof.
  induction l as [|x l IH] using rev_ind; [done|].
  rewrite length_app, Nat.add_1_r, seq_S, !omap_app. simpl. f_equal.
  - rewrite <-IH. apply list_omap_ext, Forall2_same_length_lookup_2; [done|].
    intros i a b [-> Hi]%lookup_seq [-> _]%lookup_seq. simpl.
    by rewrite lookup_app_l by lia.
  - by rewrite list_lookup_middle.
Qed.

Lemma omap_fmap_ext {A B C} (f : B → option C) (g : A → B)
    (h : A → option C) (l : list A) :
  (∀ x, f (g x) = h x) → omap f (g <$> l) = omap h l.
Proof.
  intros Hfg. induction l as [|x l IH]; [done|]. simpl. rewrite Hfg.
  destruct (h x); [f_equal|]; apply IH.
Qed.

Lemma omap_cons_Some {A B} (f : A → option B) x y (l : list A) :
  f x = Some y → omap f (x :: l) = y :: omap f l.
Proof. intros Hx. simpl. by rewrite Hx. Qed.

Lemma omap_link_series (vals : list string) :
  omap (λ val, let val := Py.strip val in if is_link val then Some val else None) vals
  = filter (λ v, is_link v = true) (Py.strip <$> vals).
Proof.
  induction vals as [|v vals IH]; [done|].
  rewrite fmap_cons, filter_cons, <-IH. simpl.
  destruct (is_link (Py.strip v)) eqn:E;
    [by rewrite decide_True|by rewrite decide_False].
Qed.

Lemma link_at_positions_from pre df :
  omap (link_at (pre ++ df)) (positions_from (length pre) df)
  = filter (λ v, is_link v = true) (Py.strip <$> column_major df).
Proof.
  revert pre. induction df as [|col df IH]; intros pre; [done|]. simpl.
  unfold column_major. simpl. rewrite omap_app, fmap_app, filter_app. f_equal.
  - rewrite <-omap_link_series, <-(omap_lookup_seq _ (series col)).
    replace (length (series col)) with (length (cells col))
      by (unfold series; by rewrite length_fmap).
    apply omap_fmap_ext. intros i. unfold link_at, text_at. cbn [fst snd].
    by rewrite list_lookup_middle.
  - specialize (IH (pre ++ [col])).
    rewrite length_app, Nat.add_1_r, <-app_assoc in IH. done.
Qed.

(** C9 (amended). The raw list holds the matching cells in column-major
    order: the traversal [positions df] lists every cell position of the
    table exactly once, column after column and top to bottom inside a
    column, and the raw list is what [link_at] keeps along it. *)
Theorem raw_list_column_major df :
  find_urls_in_df df = omap (link_at df) (positions df)
  ∧ StronglySorted column_major_lt (positions df)
  ∧ NoDup (positions df)
  ∧ ∀ j i, (j, i) ∈ positions df ↔ is_Some (text_at df (j, i)).
Proof.
  split_and!.
  - rewrite find_urls_in_df_filter. symmetry. apply (link_at_positions_from []).
  - apply positions_from_sorted.
  - apply sorted_NoDup, positions_from_sorted.
  - intros j i. unfold positions. rewrite positions_from_elem, Nat.sub_0_r.
    unfold text_at. simpl. split.
    + intros (_ & col & -> & Hi). simpl. apply lookup_lt_is_Some.
      unfold series. by rewrite length_fmap.
    + intros [t Ht]. split; [lia|]. destruct (df !! j) as [col|]; [|done].
      exists col. split; [done|]. simpl in Ht.
      apply lookup_lt_Some in Ht. unfold series in Ht.
      by rewrite length_fmap in Ht.
Qed.

(** C9, as stated with row-major order, fails: on a table of two columns
    and two rows the raw list is not the row-major list of the links. *)
Lemma raw_list_not_row_major :
  find_urls_in_df Sample.two_by_two
    = ["http://a/1"; "http://a/2"; "http://a/3"; "http://a/4"]
  ∧ filter (λ v, is_link v = true) (Py.strip <$> row_major 2 Sample.two_by_two)
    = ["http://a/1"; "http://a/3"; "http://a/2"; "http://a/4"]
  ∧ find_urls_in_df Sample.two_by_two
    ≠ filter (λ v, is_link v = true) (Py.strip <$> row_major 2 Sample.two_by_two).
Proof. split_and!; [reflexivity|reflexivity|discriminate]. Qed.

End traversal.

(** ** Deduplication *)

Section dedup.

Lemma dict_keys_setitem {V} k (v : V) (d : Py.dict V) :
  Py.dict_keys (Py.dict_setitem k v d)
  = if decide (k ∈ Py.dict_keys d)
    then Py.dict_keys d else Py.dict_keys d ++ [k].
Proof.
  unfold Py.dict_keys. induction d as [|[k' v'] d IH]; [done|].
  cbn [Py.dict_setitem].
  destruct (decide (k' = k)) as [->|Hne]; rewrite !fmap_cons; cbn [fst].
  - rewrite decide_True by apply list_elem_of_here. done.
  - rewrite IH. destruct (decide (k ∈ d.*1)) as [Hin|Hnin].
    + rewrite decide_True by (by apply list_elem_of_further). done.
    + rewrite decide_False; [done|].
      rewrite elem_of_cons. intros [->|?]; done.
Qed.

Lemma fromkeys_keys l (d : Py.dict unit) :
  Py.dict_keys (fold_left (λ d k, Py.dict_setitem k () d) l d)
  = Py.dict_keys d
    ++ filter (λ y, y ∉ Py.dict_keys d) (first_occurrences l).
Proof.
  revert d. induction l as [|x l IH]; intros d; simpl.
  - by rewrite app_nil_r.
  - rewrite IH, dict_keys_setitem.
    destruct (decide (x ∈ Py.dict_keys d)) as [Hin|Hnin].
    + rewrite filter_cons_False by tauto. f_equal.
      rewrite list_filter_filter. apply list_filter_iff. intros y.
      split; [|tauto]. intros Hy. split; [done|]. by intros ->.
    + rewrite filter_cons_True by done. rewrite <-app_assoc. simpl. do 2 f_equal.
      rewrite list_filter_filter. apply list_filter_iff. intros y.
      rewrite not_elem_of_app, list_elem_of_singleton. tauto.
Qed.

(** [list(dict.fromkeys(l))] keeps the first occurrence of each element. *)
Lemma fromkeys_first_occurrences l :
  Py.dict_keys (Py.dict_fromkeys l) = first_occurrences l.
Proof.
  unfold Py.dict_fromkeys. rewrite fromkeys_keys. simpl.
  apply filter_all, Forall_forall. intros y _. apply not_elem_of_nil.
Qed.

Lemma first_occurrences_elem x l : x ∈ first_occurrences l ↔ x ∈ l.
Proof.
  induction l as [|y l IH]; simpl; [done|].
  rewrite !elem_of_cons, list_elem_of_filter, IH.
  destruct (decide (x = y)); tauto.
Qed.

Lemma first_occurrences_NoDup l : NoDup (first_occurrences l).
Proof.
  induction l as [|y l IH]; simpl; constructor.
  - rewrite list_elem_of_filter. tauto.
  - by apply NoDup_filter.
Qed.

(** Filtering keeps the relative order of the elements it keeps. *)
Lemma filter_lookup_order {A} (P : A → Prop) `{∀ x, Decision (P x)}
    (l : list A) i j a b :
  filter P l !! i = Some a → filter P l !! j = Some b → (i < j)%nat →
  ∃ i' j', l !! i' = Some a ∧ l !! j' = Some b ∧ (i' < j')%nat.
Proof.
  revert i j. induction l as [|x l IH]; intros i j; [done|].
  rewrite filter_cons. destruct (decide (P x)) as [Hx|Hx].
  - destruct i as [|i], j as [|j]; simpl; try lia.
    + intros [= <-] Hb _.
      apply list_elem_of_lookup_2, list_elem_of_filter in Hb as [_ Hb].
      apply list_elem_of_lookup_1 in Hb as [j' Hj'].
      exists 0%nat, (S j'). split_and!; [done|done|lia].
    + intros Ha Hb Hij.
      destruct (IH i j Ha Hb) as (i' & j' & ? & ? & ?); [lia|].
      exists (S i'), (S j'). split_and!; [done|done|lia].
  - intros Ha Hb Hij.
    destruct (IH i j Ha Hb Hij) as (i' & j' & ? & ? & ?).
    exists (S i'), (S j'). split_and!; [done|done|lia].
Qed.

Lemma index_cons_ne x y l : y ≠ x → Py.index x (y :: l) = S (Py.index x l).
Proof. intros. simpl. by rewrite decide_False. Qed.

Lemma first_occurrences_order l i j a b :
  first_occurrences l !! i = Some a → first_occurrences l !! j = Some b →
  (i < j)%nat → (Py.index a l < Py.index b l)%nat.
Proof.
  revert i j. induction l as [|x l IH]; intros i j; [done|].
  cbn [first_occurrences]. destruct i as [|i], j as [|j]; try lia.
  - intros [= <-] Hb _. simpl in Hb.
    apply list_elem_of_lookup_2, list_elem_of_filter in Hb as [Hne _].
    rewrite (index_cons_ne b) by done. simpl. rewrite decide_True by done. lia.
  - intros Ha Hb Hij. simpl in Ha, Hb.
    assert (a ≠ x) by (by apply list_elem_of_lookup_2, list_elem_of_filter in Ha
        as [? _]).
    assert (b ≠ x) by (by apply list_elem_of_lookup_2, list_elem_of_filter in Hb
        as [? _]).
    destruct (filter_lookup_order _ _ _ _ _ _ Ha Hb) as (i' & j' & Hi' & Hj' & ?);
      [lia|].
    rewrite !index_cons_ne by done. apply ->Nat.succ_lt_mono.
    by eapply IH.
Qed.

(** The first occurrences of two kept elements stand in the filtered
    list as in the list that was filtered. *)
Lemma index_filter_mono (P : string → Prop) `{∀ x, Decision (P x)} l a b :
  P a → P b →
  (Py.index a (filter P l) < Py.index b (filter P l))%nat →
  (Py.index a l < Py.index b l)%nat.
Proof.
  intros Ha Hb. induction l as [|x l IH]; [done|].
  rewrite filter_cons. destruct (decide (P x)) as [Hx|Hx].
  - simpl. repeat case_decide; subst; lia.
  - intros Hlt%IH. rewrite !index_cons_ne by (intros ->; done). lia.
Qed.

Lemma unique_urls_first_occurrences df :
  unique_urls df
  = first_occurrences
      (filter (λ v, is_link v = true) (Py.strip <$> column_major df)).
Proof.
  unfold unique_urls. cbv zeta.
  by rewrite fromkeys_first_occurrences, length_filter_id, find_urls_in_df_filter.
Qed.

(** C2. The final URL list holds only trimmed texts that pass the prefix
    test and are longer than 6, holds no text twice, holds exactly the
    trimmed cell texts that pass the test, and lists them in the order of
    their first occurrence in the (column-major) traversal of the table. *)
Theorem unique_urls_spec df :
  let out := unique_urls df in
  let traversal := Py.strip <$> column_major df in
  (∀ u, u ∈ out → is_link (Py.strip u) = true ∧ 6 < Py.len u)
  ∧ NoDup out
  ∧ (∀ u, u ∈ out ↔ u ∈ traversal ∧ is_link u = true)
  ∧ (∀ i j a b, out !! i = Some a → out !! j = Some b → (i < j)%nat →
       (Py.index a traversal < Py.index b traversal)%nat).
Proof.
  intros out traversal. subst out traversal.
  rewrite unique_urls_first_occurrences.
  assert (∀ u, u ∈ first_occurrences
                 (filter (λ v, is_link v = true) (Py.strip <$> column_major df))
               ↔ u ∈ Py.strip <$> column_major df ∧ is_link u = true) as Helem.
  { intros u. rewrite first_occurrences_elem, list_elem_of_filter. tauto. }
  split_and!.
  - intros u [Hin Hl]%Helem.
    apply list_elem_of_fmap in Hin as (v & -> & _). rewrite strip_idem.
    split; [done|]. apply is_link_length in Hl. unfold Py.len. lia.
  - apply first_occurrences_NoDup.
  - done.
  - intros i j a b Ha Hb Hij.
    apply (index_filter_mono (λ v, is_link v = true)).
    + by apply list_elem_of_lookup_2, Helem in Ha as [_ ?].
    + by apply list_elem_of_lookup_2, Helem in Hb as [_ ?].
    + by eapply first_occurrences_order.
Qed.

End dedup.

(** ** The sniffer *)

Section sniffer.

Lemma startswith_dot_contains t :
  Py.contains "." t = false → Py.startswith t "." = false.
Proof. destruct t as [|a t]; simpl; [done|]. by repeat case_decide. Qed.

Lemma lstrip_char_plain e :
  Py.startswith e "." = false → Py.lstrip_char "." e = e.
Proof. destruct e as [|a e]; simpl; [done|]. repeat case_decide; congruence. Qed.

Lemma lstrip_dot_ext t :
  Py.contains "." t = false → Py.lstrip_char "." (String "." t) = t.
Proof.
  intros Ht. change (Py.lstrip_char "." (String "." t)) with (Py.lstrip_char "." t).
  by apply lstrip_char_no_contains.
Qed.

(** The fall-back of lines 60-64, as a function of what [urlparse] gives. *)
Lemma detect_extension_cases L content content_type url :
  (∃ e, filetype_guess L content = Some e
        ∧ detect_extension L content content_type url = Ok e)
  ∨ (∃ g, filetype_guess L content = None
          ∧ guessed_from L content_type = Some g ∧ g ≠ ""
          ∧ detect_extension L content content_type url
            = Ok (Py.lstrip_char "." g))
  ∨ (filetype_guess L content = None
     ∧ (guessed_from L content_type = None
        ∨ guessed_from L content_type = Some "")
     ∧ detect_extension L content content_type url
       = match urlparse_path L url with
         | Raise msg => Raise msg
         | Ok path =>
             if Py.truthy (Py.splitext_ext path)
                && (Py.len (Py.splitext_ext path) <=? 6)
             then Ok (Py.lstrip_char "." (Py.splitext_ext path)) else Ok "jpg"
         end).
Proof.
  unfold detect_extension.
  destruct (filetype_guess L content) as [e|]; [left; eauto|right].
  destruct (guessed_from L content_type) as [[|a g]|]; [right|left|right]; eauto.
Qed.


Lemma sample_types_map_plain :
  Forall (λ entry : string * string,
            ∃ e, entry.2 = String "." e ∧ plain_extension e) Sample.types_map.
Proof.
  unfold Sample.types_map.
  repeat constructor; eexists; (split; [reflexivity|by split]).
Qed.

(** The sample instance meets what is assumed of the libraries. *)
Lemma sample_libs_ok : libs_ok Sample.libs.
Proof.
  split; simpl.
  - intros content e. unfold Sample.guess.
    repeat case_bool_decide; intros [= <-]; by split.
  - intros t g. unfold Sample.mime_guess_extension.
    destruct (list_find _ _) as [[i entry]|] eqn:E; [|done].
    intros [= <-]. apply list_find_Some in E as (Hin & _).
    apply list_elem_of_lookup_2 in Hin.
    by apply (proj1 (Forall_forall _ _) sample_types_map_plain).
Qed.


Lemma guessed_from_table L content_type g :
  guessed_from L content_type = Some g → ∃ t, guess_extension L t = Some g.
Proof.
  destruct content_type as [ct|]; [|done]. simpl.
  destruct (Py.truthy ct); [|done]. by eauto.
Qed.

(** C3 (amended). [detect_extension] raises only what [urlparse] raises on
    the URL, so it returns wherever [urlparse] does.  What it returns
    never starts with a dot, and nothing changes its letter case: it is
    the extension of the signature table as it stands, or an extension of
    the media-type table without its dot, or ["jpg"], and then it is not
    empty; or it is taken from the URL: the text, empty or not, after the
    dot of the extension of the URL's path. *)
Theorem detect_extension_result L content content_type url :
  libs_ok L →
  (∀ msg, detect_extension L content content_type url = Raise msg →
          urlparse_path L url = Raise msg)
  ∧ (∀ e, detect_extension L content content_type url = Ok e →
          Py.startswith e "." = false
          ∧ ((e ≠ ""
              ∧ (filetype_guess L content = Some e
                 ∨ (∃ t, guess_extension L t = Some (String "." e))
                 ∨ e = "jpg"))
             ∨ ∃ path, urlparse_path L url = Ok path
                       ∧ Py.splitext_ext path = String "." e)).
Proof.
  intros [Hft Hmt].
  destruct (detect_extension_cases L content content_type url)
    as [(e0 & Hg & ->) | [(g & _ & Hg & _ & ->) | (_ & _ & ->)]].
  - split; [done|]. intros e [= <-].
    destruct (Hft _ _ Hg) as (? & ?). by eauto 6.
  - split; [done|]. intros e [= <-].
    apply guessed_from_table in Hg as [t Ht].
    destruct (Hmt _ _ Ht) as (e0 & -> & ? & Hdot).
    change (Py.lstrip_char "." (String "." e0)) with (Py.lstrip_char "." e0).
    rewrite lstrip_char_plain by done. by eauto 8.
  - destruct (urlparse_path L url) as [path|msg'] eqn:Hp.
    + split; [by intros msg; case_match|].
      destruct (splitext_ext_shape path) as [->|(t & Ht & Hdot)].
      * simpl. intros e [= <-]. by eauto 6.
      * rewrite Ht. case_match.
        -- rewrite lstrip_dot_ext by done. intros e [= <-].
           split; [by apply startswith_dot_contains|]. right. by eauto.
        -- intros e [= <-]. by eauto 6.
    + split; [by intros msg [= <-]|done].
Qed.

(** C3 (amended), at the sample libraries: a PNG content type and a URL
    path ending in [.JPG]. *)
Lemma detect_extension_result_witness :
  libs_ok Sample.libs
  ∧ detect_extension Sample.libs [] (Some "image/png; q=1") "http://a/x.JPG"
    = Ok "png"
  ∧ (∀ msg,
       detect_extension Sample.libs [] (Some "image/png; q=1") "http://a/x.JPG"
       = Raise msg →
       urlparse_path Sample.libs "http://a/x.JPG" = Raise msg)
  ∧ (∀ e,
       detect_extension Sample.libs [] (Some "image/png; q=1") "http://a/x.JPG"
       = Ok e →
       Py.startswith e "." = false
       ∧ ((e ≠ ""
           ∧ (filetype_guess Sample.libs [] = Some e
              ∨ (∃ t, guess_extension Sample.libs t = Some (String "." e))
              ∨ e = "jpg"))
          ∨ ∃ path, urlparse_path Sample.libs "http://a/x.JPG" = Ok path
                    ∧ Py.splitext_ext path = String "." e)).
Proof.
  split; [exact sample_libs_ok|]. split; [reflexivity|].
  exact (detect_extension_result Sample.libs [] (Some "image/png; q=1")
           "http://a/x.JPG" sample_libs_ok).
Defined.

(** C3, as stated, fails: a URL whose path ends in [.JPG], with no
    signature in the (empty) content and no content type, gives the
    extension ["JPG"], which is not lowercase. *)
Lemma detect_extension_not_lowercase :
  detect_extension Sample.libs [] (Some "") "http://a/x.JPG" = Ok "JPG"
  ∧ Py.is_lowercase "JPG" = false.
Proof. split; reflexivity. Qed.




End sniffer.

(** ** The fetcher *)

Lemma path_join_in_folder folder dest_name ext :
  Py.startswith dest_name "/" = false →
  in_folder folder (dest_name +:+ "." +:+ ext)
    (Py.path_join folder (dest_name +:+ "." +:+ ext)).
Proof.
  intros Hd. unfold Py.path_join, in_folder.
  assert (Py.startswith (dest_name +:+ "." +:+ ext) "/" = false) as ->.
  { destruct dest_name as [|a d]; [done|]. simpl in *. by case_decide. }
  destruct (negb (Py.truthy folder) || Py.endswith_slash folder); by eauto.
Qed.

Section fetcher.

Context (L : pylibs) (session : Z → get_result) (storage : Z → write_result).
Context (url dest_name folder : string) (timeout : Z).

Lemma attempt_body_transport_failure got wr msg w :
  transport_failure got = Some msg →
  attempt_body L url dest_name folder timeout got wr w
  = (Failed msg, do_get url timeout w).
Proof.
  unfold transport_failure, attempt_body. destruct got as [m|status h body].
  - by intros [= ->].
  - case_decide; [|by intros [= ->]]. destruct body; [done|]. by intros [= ->].
Qed.

(** An attempt ends in one of three ways: it fails and no file is opened;
    it opens the file and fails, and the file holds the bytes written
    before the exception; or it writes the body and returns. *)
Lemma attempt_body_cases got wr w :
  (∃ msg, attempt_failure L url got wr = Some msg
          ∧ attempt_body L url dest_name folder timeout got wr w
            = (Failed msg, do_get url timeout w))
  ∨ (∃ h content ext written msg,
       got = GetResponse 200 h (Ok content)
       ∧ detect_extension L content (Some (default "" h)) url = Ok ext
       ∧ wr = WriteRaises written msg
       ∧ attempt_failure L url got wr = Some msg
       ∧ attempt_body L url dest_name folder timeout got wr w
         = (Failed msg,
            World
              (<[Py.path_join folder (dest_name +:+ "." +:+ ext)
                 := take written content]> (files w))
              (events w ++ [EvGet url timeout])))
  ∨ (∃ h content ext,
       got = GetResponse 200 h (Ok content)
       ∧ detect_extension L content (Some (default "" h)) url = Ok ext
       ∧ wr = Written
       ∧ attempt_body L url dest_name folder timeout got wr w
         = (Returned (dest_name +:+ "." +:+ ext),
            World
              (<[Py.path_join folder (dest_name +:+ "." +:+ ext) := content]>
                 (files w))
              (events w
               ++ [EvGet url timeout;
                   EvWrite (Py.path_join folder (dest_name +:+ "." +:+ ext))
                     content]))).
Proof.
  unfold attempt_body, attempt_failure. cbv zeta.
  destruct got as [m|status h body]; [by eauto|].
  case_decide as Hs; [subst status|by eauto].
  destruct body as [content|m]; [|by eauto].
  destruct (detect_extension _ _ _ _) as [ext|m] eqn:Hd; [|by eauto].
  destruct wr as [|m|written m].
  - right; right. exists h, content, ext. split_and!; [done..|].
    cbn [do_write do_get files events]. by rewrite <-app_assoc.
  - left. by eauto.
  - right; left. by exists h, content, ext, written, m.
Qed.

Lemma download_loop_all_fail attempts last_exc w :
  Forall (λ k, is_Some (transport_failure (session k))) attempts →
  download_loop L session storage url dest_name folder timeout attempts last_exc w
  = ((false, None,
      match last attempts with
      | Some k => transport_failure (session k)
      | None => last_exc
      end),
     World (files w) (events w ++ failure_trace url timeout attempts)).
Proof.
  intros Hall. revert last_exc w.
  induction Hall as [|k attempts [msg Hk] _ IH]; intros last_exc w.
  - simpl. unfold failure_trace. simpl. rewrite app_nil_r. by destruct w.
  - cbn [download_loop].
    rewrite (attempt_body_transport_failure _ _ _ _ Hk), IH.
    unfold failure_trace. rewrite bind_cons.
    cbn [do_sleep do_get files events]. rewrite <-!app_assoc.
    do 2 f_equal. destruct attempts as [|k' attempts]; [by simpl; rewrite Hk|].
    rewrite last_cons_cons.
    destruct (last (k' :: attempts)) eqn:E; [done|]. by apply last_None in E.
Qed.

Lemma gets_app w evs :
  gets (World (files w) (events w ++ evs))
  = gets w ++ omap (λ e, match e with EvGet u t => Some (u, t) | _ => None end) evs.
Proof. unfold gets. simpl. by rewrite omap_app. Qed.

Lemma gets_failure_trace attempts :
  omap (λ e, match e with EvGet u t => Some (u, t) | _ => None end)
    (failure_trace url timeout attempts)
  = replicate (length attempts) (url, timeout).
Proof.
  unfold failure_trace. induction attempts as [|k attempts IH]; [done|].
  rewrite bind_cons, omap_app, IH. done.
Qed.

Lemma sleeps_failure_trace attempts :
  omap (λ e, match e with EvSleep s => Some s | _ => None end)
    (failure_trace url timeout attempts)
  = backoff <$> attempts.
Proof.
  unfold failure_trace. induction attempts as [|k attempts IH]; [done|].
  rewrite bind_cons, omap_app, IH. done.
Qed.

Lemma writes_failure_trace attempts :
  omap (λ e, match e with EvWrite p d => Some (p, d) | _ => None end)
    (failure_trace url timeout attempts)
  = [].
Proof.
  unfold failure_trace. induction attempts as [|k attempts IH]; [done|].
  rewrite bind_cons, omap_app, IH. done.
Qed.

Lemma last_range n : 0 ≤ n → last (Py.range (n + 1)) = Some n.
Proof.
  intros Hn. unfold Py.range.
  replace (n + 1) with (Z.of_nat (S (Z.to_nat n))) by lia.
  rewrite seqZ_S, last_snoc. f_equal. lia.
Qed.

(** C5. When every one of the attempts [0..max_retries] fails by a non-200
    status or an exception of the transport, [download_one] issues exactly
    [max_retries + 1] GETs, all for [url], and returns
    [(False, None, reason)] with the reason of the last attempt. *)
Theorem all_attempts_fail max_retries w :
  0 ≤ max_retries →
  (∀ k, 0 ≤ k ≤ max_retries → is_Some (transport_failure (session k))) →
  (download_one L session storage url dest_name folder timeout max_retries w).1
  = (false, None, transport_failure (session max_retries))
  ∧ gets (download_one L session storage url dest_name folder timeout
            max_retries w).2
    = gets w ++ replicate (Z.to_nat (max_retries + 1)) (url, timeout).
Proof.
  intros HR Hfail. unfold download_one.
  rewrite download_loop_all_fail; cbn [fst snd].
  - rewrite last_range by done. split; [done|].
    rewrite gets_app, gets_failure_trace. unfold Py.range.
    by rewrite length_seqZ.
  - apply Forall_forall. intros k [? ?]%elem_of_seqZ. apply Hfail. lia.
Qed.

(** The effects of the loop: some attempts fail, each with its GET and its
    sleep; then the attempts are used up, or one attempt returns after its
    GET and its write.  The files are exactly known when no failed
    attempt has left a file behind. *)
Lemma download_loop_trace attempts last_exc w :
  ∃ failed rest tail,
    attempts = failed ++ rest
    ∧ Forall (λ k, is_Some (attempt_failure L url (session k) (storage k))) failed
    ∧ events (download_loop L session storage url dest_name folder timeout
                attempts last_exc w).2
      = events w ++ failure_trace url timeout failed ++ tail
    ∧ ((rest = [] ∧ tail = []
        ∧ (∃ error,
             (download_loop L session storage url dest_name folder timeout
                attempts last_exc w).1 = (false, None, error))
        ∧ (Forall (λ k, partial (storage k) = false) failed →
           files (download_loop L session storage url dest_name folder timeout
                    attempts last_exc w).2 = files w))
       ∨ (∃ k rest' h content ext,
            rest = k :: rest'
            ∧ session k = GetResponse 200 h (Ok content)
            ∧ detect_extension L content (Some (default "" h)) url = Ok ext
            ∧ storage k = Written
            ∧ tail = [EvGet url timeout;
                      EvWrite (Py.path_join folder (dest_name +:+ "." +:+ ext))
                        content]
            ∧ (download_loop L session storage url dest_name folder timeout
                 attempts last_exc w).1
              = (true, Some (dest_name +:+ "." +:+ ext), None)
            ∧ files (download_loop L session storage url dest_name folder
                       timeout attempts last_exc w).2
              !! Py.path_join folder (dest_name +:+ "." +:+ ext) = Some content
            ∧ (Forall (λ k, partial (storage k) = false) failed →
               files (download_loop L session storage url dest_name folder
                        timeout attempts last_exc w).2
               = <[Py.path_join folder (dest_name +:+ "." +:+ ext) := content]>
                   (files w)))).
Proof.
  revert last_exc w. induction attempts as [|k attempts IH]; intros last_exc w.
  - exists [], [], []. split_and!; [done|done|by rewrite !app_nil_r|].
    left. split_and!; [done|done|by eauto|done].
  - cbn [download_loop].
    destruct (attempt_body_cases (session k) (storage k) w)
      as [(msg & Hf & ->)
         | [(h & content & ext & written & msg & Hk & Hd & Hs & Hf & ->)
           | (h & content & ext & Hk & Hd & Hs & ->)]].
    + destruct (IH (Some msg) (do_sleep (backoff k) (do_get url timeout w)))
        as (failed & rest & tail & -> & Hall & Hev & Hend).
      exists (k :: failed), rest, tail.
      split_and!; [done|by constructor; eauto| |].
      * rewrite Hev. unfold failure_trace. rewrite bind_cons.
        cbn [do_sleep do_get files events]. by rewrite <-!app_assoc.
      * destruct Hend as [(-> & -> & Hr & Hfiles)
                         | (k' & rest' & h & content & ext & -> & Hk' & Hd & Hs
                            & -> & Hr & Hlook & Hfiles)].
        -- left. split_and!; [done|done|done|].
           intros [_ Hp]%Forall_cons. by rewrite Hfiles.
        -- right. exists k', rest', h, content, ext. split_and!; [done..|].
           intros [_ Hp]%Forall_cons. by rewrite Hfiles.
    + destruct (IH (Some msg)
                  (do_sleep (backoff k)
                     (World
                        (<[Py.path_join folder (dest_name +:+ "." +:+ ext)
                           := take written content]> (files w))
                        (events w ++ [EvGet url timeout]))))
        as (failed & rest & tail & -> & Hall & Hev & Hend).
      exists (k :: failed), rest, tail.
      split_and!; [done|by constructor; eauto| |].
      * rewrite Hev. unfold failure_trace. rewrite bind_cons.
        cbn [do_sleep files events]. by rewrite <-!app_assoc.
      * destruct Hend as [(-> & -> & Hr & Hfiles)
                         | (k' & rest' & h' & content' & ext' & -> & Hk' & Hd'
                            & Hs' & -> & Hr & Hlook & Hfiles)].
        -- left. split_and!; [done|done|done|].
           intros [Hp _]%Forall_cons. by rewrite Hs in Hp.
        -- right. exists k', rest', h', content', ext'. split_and!; [done..|].
           intros [Hp _]%Forall_cons. by rewrite Hs in Hp.
    + exists [], (k :: attempts),
        [EvGet url timeout;
         EvWrite (Py.path_join folder (dest_name +:+ "." +:+ ext)) content].
      split_and!; [done|done|done|].
      right. exists k, attempts, h, content, ext.
      split_and!; [done..|by apply lookup_insert_eq|done].
Qed.

(** The files of the loop, path by path: a file that is not as it was
    before is at one of the paths of the call, and it holds the body that
    the returning attempt wrote, or the first bytes of the body of an
    attempt whose write raised. *)
Lemma download_loop_files attempts last_exc w p :
  files (download_loop L session storage url dest_name folder timeout
           attempts last_exc w).2 !! p = files w !! p
  ∨ ∃ k h content ext,
      k ∈ attempts
      ∧ session k = GetResponse 200 h (Ok content)
      ∧ detect_extension L content (Some (default "" h)) url = Ok ext
      ∧ p = Py.path_join folder (dest_name +:+ "." +:+ ext)
      ∧ (((download_loop L session storage url dest_name folder timeout
             attempts last_exc w).1.1.1 = true
          ∧ files (download_loop L session storage url dest_name folder timeout
                     attempts last_exc w).2 !! p = Some content)
         ∨ ∃ written msg,
             storage k = WriteRaises written msg
             ∧ files (download_loop L session storage url dest_name folder
                        timeout attempts last_exc w).2 !! p
               = Some (take written content)).
Proof.
  revert last_exc w. induction attempts as [|k attempts IH]; intros last_exc w;
    [by left|].
  cbn [download_loop].
  destruct (attempt_body_cases (session k) (storage k) w)
    as [(msg & Hf & ->)
       | [(h & content & ext & written & msg & Hk & Hd & Hs & Hf & ->)
         | (h & content & ext & Hk & Hd & Hs & ->)]].
  - destruct (IH (Some msg) (do_sleep (backoff k) (do_get url timeout w)))
      as [Hsame | (k' & h & content & ext & Hin & Hrest)]; [by left|].
    right. exists k', h, content, ext. split; [by right|done].
  - destruct (IH (Some msg)
                (do_sleep (backoff k)
                   (World
                      (<[Py.path_join folder (dest_name +:+ "." +:+ ext)
                         := take written content]> (files w))
                      (events w ++ [EvGet url timeout]))))
      as [Hsame | (k' & h' & content' & ext' & Hin & Hrest)].
    + cbn [do_sleep files] in Hsame.
      destruct (decide (p = Py.path_join folder (dest_name +:+ "." +:+ ext)))
        as [->|Hne].
      * right. exists k, h, content, ext. split_and!; [by left|done..|].
        right. exists written, msg. split; [done|].
        by rewrite Hsame, lookup_insert_eq.
      * left. by rewrite Hsame, lookup_insert_ne.
    + right. exists k', h', content', ext'. split; [by right|done].
  - cbn [fst snd files].
    destruct (decide (p = Py.path_join folder (dest_name +:+ "." +:+ ext)))
      as [->|Hne].
    + right. exists k, h, content, ext. split_and!; [by left|done..|].
      left. split; [done|]. by apply lookup_insert_eq.
    + left. by rewrite lookup_insert_ne.
Qed.

(** A call touches no file but at its own paths. *)
Lemma download_loop_frame attempts last_exc w p :
  ¬ own_path folder dest_name p →
  files (download_loop L session storage url dest_name folder timeout
           attempts last_exc w).2 !! p = files w !! p.
Proof.
  intros Hp.
  destruct (download_loop_files attempts last_exc w p)
    as [Hsame | (k & h & content & ext & _ & _ & _ & -> & _)]; [done|].
  destruct Hp. by exists ext.
Qed.

Lemma range_prefix n failed rest :
  Py.range n = failed ++ rest → failed = Py.range (Z.of_nat (length failed)).
Proof.
  unfold Py.range. intros Hsplit.
  pose proof (f_equal length Hsplit) as Hlen.
  rewrite length_seqZ, length_app in Hlen.
  destruct (decide (n ≤ 0)) as [Hn|Hn].
  { by destruct failed; [|simpl in Hlen; lia]. }
  replace n with (Z.of_nat (length failed) + (n - Z.of_nat (length failed)))
    in Hsplit by lia.
  rewrite seqZ_app in Hsplit by lia.
  apply app_inj_1 in Hsplit as [Hf _]; [done|].
  rewrite length_seqZ. lia.
Qed.

(** C6 (amended). Every failed attempt [k], also the last one allowed, is
    followed by a sleep of [0.5 * (k + 1)] seconds, and the next GET
    comes after that sleep only when attempts are left: the effects of
    [download_one] are the GET and the sleep of [n] failed attempts
    [0..n-1], followed by nothing when it fails (then [n] is
    [max_retries + 1] and the last effect is the sleep after the last
    attempt), and by one GET and one write when it succeeds. *)
Theorem backoff_after_every_failure max_retries w :
  0 ≤ max_retries →
  ∃ (n : nat) (tail : list event),
    events (download_one L session storage url dest_name folder timeout
              max_retries w).2
    = events w ++ failure_trace url timeout (Py.range (Z.of_nat n)) ++ tail
    ∧ sleeps (download_one L session storage url dest_name folder timeout
                max_retries w).2
      = sleeps w ++ (backoff <$> Py.range (Z.of_nat n))
    ∧ (((download_one L session storage url dest_name folder timeout
           max_retries w).1.1.1 = false
        ∧ Z.of_nat n = max_retries + 1 ∧ tail = [])
       ∨ ((download_one L session storage url dest_name folder timeout
             max_retries w).1.1.1 = true
          ∧ Z.of_nat n ≤ max_retries
          ∧ ∃ path data, tail = [EvGet url timeout; EvWrite path data])).
Proof.
  intros HR. unfold download_one.
  destruct (download_loop_trace (Py.range (max_retries + 1)) None w)
    as (failed & rest & tail & Hsplit & _ & Hev & Hend).
  pose proof (range_prefix _ _ _ Hsplit) as Hfailed.
  assert (length failed + length rest = Z.to_nat (max_retries + 1))%nat as Hlen.
  { apply (f_equal length) in Hsplit. unfold Py.range in Hsplit.
    rewrite length_seqZ, length_app in Hsplit. lia. }
  exists (length failed), tail. rewrite <-Hfailed. split_and!; [done| |].
  - unfold sleeps. rewrite Hev, !omap_app, sleeps_failure_trace.
    destruct Hend as [(_ & -> & _)
                     | (? & ? & ? & ? & ? & _ & _ & _ & _ & -> & _)];
      simpl; by rewrite app_nil_r.
  - destruct Hend as [(-> & -> & [error ->] & _)
                     | (k & rest' & h & content & ext & -> & _ & _ & _ & ->
                        & -> & _)].
    + left. simpl in *. split_and!; [done|lia|done].
    + right. simpl in *. split_and!; [done|lia|by eauto].
Qed.

Lemma in_range_bounds k n : k ∈ Py.range (n + 1) → 0 ≤ k ≤ n.
Proof. unfold Py.range. intros [? ?]%elem_of_seqZ. lia. Qed.

(** C7 (amended). A call that returns success has completed exactly one
    write: the body of the response that had status 200, at
    [os.path.join(folder, dest_name + "." + ext)] with [ext] from
    [detect_extension]; the file at that path then holds the body, and the
    path is [dest_name.ext] directly under [folder] when [dest_name] does
    not begin with a slash.  A call that returns failure has completed no
    write.  Either call may leave other files behind: a file that is not
    as it was before the call is at one of the paths
    [os.path.join(folder, dest_name + "." + ext)] of the call, and it holds
    the body written by the returning attempt, or the first bytes of the
    body of an attempt that opened the file and whose write raised.  When
    no write raises after its file was opened, a successful call changes
    the one file only and a failed call leaves the files as they were. *)
Theorem one_full_write_or_none max_retries w :
  (∃ status final_name error,
     (download_one L session storage url dest_name folder timeout
        max_retries w).1 = (status, final_name, error)
     ∧ if status then
         ∃ k h content ext,
           0 ≤ k ≤ max_retries
           ∧ session k = GetResponse 200 h (Ok content)
           ∧ detect_extension L content (Some (default "" h)) url = Ok ext
           ∧ storage k = Written
           ∧ final_name = Some (dest_name +:+ "." +:+ ext) ∧ error = None
           ∧ writes (download_one L session storage url dest_name folder
                       timeout max_retries w).2
             = writes w
               ++ [(Py.path_join folder (dest_name +:+ "." +:+ ext), content)]
           ∧ files (download_one L session storage url dest_name folder
                      timeout max_retries w).2
             !! Py.path_join folder (dest_name +:+ "." +:+ ext) = Some content
           ∧ (Py.startswith dest_name "/" = false →
              in_folder folder (dest_name +:+ "." +:+ ext)
                (Py.path_join folder (dest_name +:+ "." +:+ ext)))
           ∧ ((∀ j, 0 ≤ j < k → partial (storage j) = false) →
              files (download_one L session storage url dest_name folder
                       timeout max_retries w).2
              = <[Py.path_join folder (dest_name +:+ "." +:+ ext) := content]>
                  (files w))
       else
         final_name = None
         ∧ writes (download_one L session storage url dest_name folder
                     timeout max_retries w).2 = writes w
         ∧ ((∀ j, 0 ≤ j ≤ max_retries → partial (storage j) = false) →
            files (download_one L session storage url dest_name folder
                     timeout max_retries w).2 = files w))
  ∧ ∀ p,
      files (download_one L session storage url dest_name folder timeout
               max_retries w).2 !! p = files w !! p
      ∨ ∃ k h content ext,
          0 ≤ k ≤ max_retries
          ∧ session k = GetResponse 200 h (Ok content)
          ∧ detect_extension L content (Some (default "" h)) url = Ok ext
          ∧ p = Py.path_join folder (dest_name +:+ "." +:+ ext)
          ∧ (((download_one L session storage url dest_name folder timeout
                 max_retries w).1.1.1 = true
              ∧ files (download_one L session storage url dest_name folder
                         timeout max_retries w).2 !! p = Some content)
             ∨ ∃ written msg,
                 storage k = WriteRaises written msg
                 ∧ files (download_one L session storage url dest_name folder
                            timeout max_retries w).2 !! p
                   = Some (take written content)).
Proof.
  unfold download_one. split.
  - destruct (download_loop_trace (Py.range (max_retries + 1)) None w)
      as (failed & rest & tail & Hsplit & _ & Hev & Hend).
    pose proof (range_prefix _ _ _ Hsplit) as Hfailed.
    unfold writes. rewrite Hev, !omap_app, writes_failure_trace.
    destruct Hend as [(-> & -> & [error ->] & Hfiles)
                     | (k & rest' & h & content & ext & -> & Hk & Hd & Hs & ->
                        & -> & Hlook & Hfiles)].
    + exists false, None, error. split; [done|]. simpl.
      rewrite app_nil_r in *. split_and!; [done|done|].
      intros Hp. apply Hfiles. subst failed. apply Forall_forall.
      intros j Hj%in_range_bounds. by apply Hp.
    + exists true, (Some (dest_name +:+ "." +:+ ext)), None. split; [done|].
      assert (k ∈ Py.range (max_retries + 1)) as Hin.
      { rewrite Hsplit, elem_of_app, elem_of_cons. tauto. }
      apply in_range_bounds in Hin.
      assert (k = Z.of_nat (length failed)) as Hlen.
      { pose proof (f_equal (λ l, l !! length failed) Hsplit) as Hl.
        simpl in Hl. rewrite list_lookup_middle in Hl by done.
        unfold Py.range in Hl. apply lookup_seqZ in Hl. lia. }
      exists k, h, content, ext. split_and!; try done; try lia.
      * apply path_join_in_folder.
      * intros Hp. apply Hfiles. rewrite Hfailed. apply Forall_forall.
        intros j [? ?]%elem_of_seqZ. apply Hp. lia.
  - intros p.
    destruct (download_loop_files (Py.range (max_retries + 1)) None w p)
      as [Hsame | (k & h & content & ext & Hin%in_range_bounds & Hrest)];
      [by left|].
    right. by exists k, h, content, ext.
Qed.

End fetcher.

(** C5 at [max_retries = 2] and three failures in a row (404, time-out,
    503): three GETs, and the error of the third. *)
Lemma all_attempts_fail_witness :
  0 ≤ 2
  ∧ (∀ k, 0 ≤ k ≤ 2 → is_Some (transport_failure (Sample.three_failures k)))
  ∧ (download_one Sample.libs Sample.three_failures Sample.writable
       "http://a/x" "bill 1" "out" 20 2 Sample.empty_world).1
    = (false, None, Some "HTTP 503")
  ∧ gets (download_one Sample.libs Sample.three_failures Sample.writable
            "http://a/x" "bill 1" "out" 20 2 Sample.empty_world).2
    = [("http://a/x", 20); ("http://a/x", 20); ("http://a/x", 20)].
Proof.
  assert (∀ k, 0 ≤ k ≤ 2 → is_Some (transport_failure (Sample.three_failures k)))
    as Hfail.
  { intros k _. unfold Sample.three_failures. repeat case_decide; by eexists. }
  split; [lia|]. split; [exact Hfail|].
  apply (all_attempts_fail Sample.libs Sample.three_failures Sample.writable
           "http://a/x" "bill 1" "out" 20 2 Sample.empty_world);
    [lia|exact Hfail].
Defined.

Lemma backoff_0 : backoff 0 = Q2Qc (1 # 2)%Q.
Proof. by apply Qc_is_canon. Qed.

(** C6, as stated, fails: with [max_retries = 0] the only attempt is the
    last one allowed; it fails with a 404, and a sleep of half a second
    follows it all the same. *)
Lemma sleep_after_last_attempt :
  (download_one Sample.libs (Sample.always (GetResponse 404 None (Ok [])))
     Sample.writable "http://a/x" "bill 1" "out" 20 0 Sample.empty_world).1
  = (false, None, Some "HTTP 404")
  ∧ events (download_one Sample.libs
              (Sample.always (GetResponse 404 None (Ok []))) Sample.writable
              "http://a/x" "bill 1" "out" 20 0 Sample.empty_world).2
    = [EvGet "http://a/x" 20; EvSleep (Q2Qc (1 # 2)%Q)].
Proof. rewrite <-backoff_0. split; reflexivity. Qed.

(** C6 (amended) at [max_retries = 2], a 500 and then a 200. *)
Lemma backoff_after_every_failure_witness :
  0 ≤ 2
  ∧ ∃ (n : nat) (tail : list event),
      events (download_one Sample.libs Sample.second_time_lucky Sample.writable
                "http://a/x" "bill 1" "out" 20 2 Sample.empty_world).2
      = events Sample.empty_world
        ++ failure_trace "http://a/x" 20 (Py.range (Z.of_nat n)) ++ tail
      ∧ sleeps (download_one Sample.libs Sample.second_time_lucky
                  Sample.writable "http://a/x" "bill 1" "out" 20 2
                  Sample.empty_world).2
        = sleeps Sample.empty_world ++ (backoff <$> Py.range (Z.of_nat n))
      ∧ (((download_one Sample.libs Sample.second_time_lucky Sample.writable
             "http://a/x" "bill 1" "out" 20 2 Sample.empty_world).1.1.1 = false
          ∧ Z.of_nat n = 2 + 1 ∧ tail = [])
         ∨ ((download_one Sample.libs Sample.second_time_lucky Sample.writable
               "http://a/x" "bill 1" "out" 20 2 Sample.empty_world).1.1.1 = true
            ∧ Z.of_nat n ≤ 2
            ∧ ∃ path data, tail = [EvGet "http://a/x" 20; EvWrite path data])).
Proof.
  split; [lia|].
  apply (backoff_after_every_failure Sample.libs Sample.second_time_lucky
           Sample.writable "http://a/x" "bill 1" "out" 20 2 Sample.empty_world).
  lia.
Defined.

(** C7, as stated, fails.  A call without retries gets the JPEG with a
    200 while the disk fills up: the file is opened, the write raises
    after two bytes, line 83 catches the exception, and the call returns
    failure with the file ["out/bill 1.jpg"], which was not there before,
    left behind.  And a call with a destination name that begins with a
    slash succeeds with a file that is not inside the folder:
    [os.path.join] drops the folder. *)
Lemma failed_call_leaves_file :
  ((download_one Sample.libs
      (Sample.always (GetResponse 200 (Some "image/jpeg") (Ok Sample.jpeg_bytes)))
      Sample.disk_full "http://a/x" "bill 1" "out" 20 0 Sample.empty_world).1
   = (false, None, Some "[Errno 28] No space left on device")
   ∧ files Sample.empty_world !! "out/bill 1.jpg" = None
   ∧ files (download_one Sample.libs
              (Sample.always
                 (GetResponse 200 (Some "image/jpeg") (Ok Sample.jpeg_bytes)))
              Sample.disk_full "http://a/x" "bill 1" "out" 20 0
              Sample.empty_world).2 !! "out/bill 1.jpg"
     = Some [Byte.xff; Byte.xd8])
  ∧ ((download_one Sample.libs
        (Sample.always (GetResponse 200 (Some "image/jpeg") (Ok Sample.jpeg_bytes)))
        Sample.writable "http://a/x" "/tmp/x" "out" 20 0 Sample.empty_world).1
     = (true, Some "/tmp/x.jpg", None)
     ∧ writes (download_one Sample.libs
                 (Sample.always
                    (GetResponse 200 (Some "image/jpeg") (Ok Sample.jpeg_bytes)))
                 Sample.writable "http://a/x" "/tmp/x" "out" 20 0
                 Sample.empty_world).2
       = [("/tmp/x.jpg", Sample.jpeg_bytes)]
     ∧ ¬ in_folder "out" "/tmp/x.jpg" "/tmp/x.jpg").
Proof.
  split; split_and!; try reflexivity.
  by intros [?|?].
Qed.

(** C7 (amended) at a call that succeeds on its second attempt. *)
Lemma one_full_write_or_none_witness :
  (download_one Sample.libs Sample.second_time_lucky Sample.writable
     "http://a/x" "bill 1" "out" 20 2 Sample.empty_world).1
  = (true, Some "bill 1.jpg", None)
  ∧ writes (download_one Sample.libs Sample.second_time_lucky Sample.writable
              "http://a/x" "bill 1" "out" 20 2 Sample.empty_world).2
    = [("out/bill 1.jpg", Sample.jpeg_bytes)]
  ∧ files (download_one Sample.libs Sample.second_time_lucky Sample.writable
             "http://a/x" "bill 1" "out" 20 2 Sample.empty_world).2
    !! "out/bill 1.jpg" = Some Sample.jpeg_bytes
  ∧ ∀ p,
      files (download_one Sample.libs Sample.second_time_lucky Sample.writable
               "http://a/x" "bill 1" "out" 20 2 Sample.empty_world).2 !! p
      = files Sample.empty_world !! p
      ∨ ∃ k h content ext,
          0 ≤ k ≤ 2
          ∧ Sample.second_time_lucky k = GetResponse 200 h (Ok content)
          ∧ detect_extension Sample.libs content (Some (default "" h))
              "http://a/x" = Ok ext
          ∧ p = Py.path_join "out" ("bill 1" +:+ "." +:+ ext)
          ∧ (((download_one Sample.libs Sample.second_time_lucky
                 Sample.writable "http://a/x" "bill 1" "out" 20 2
                 Sample.empty_world).1.1.1 = true
              ∧ files (download_one Sample.libs Sample.second_time_lucky
                         Sample.writable "http://a/x" "bill 1" "out" 20 2
                         Sample.empty_world).2 !! p = Some content)
             ∨ ∃ written msg,
                 Sample.writable k = WriteRaises written msg
                 ∧ files (download_one Sample.libs Sample.second_time_lucky
                            Sample.writable "http://a/x" "bill 1" "out" 20 2
                            Sample.empty_world).2 !! p
                   = Some (take written content)).
Proof.
  split; [reflexivity|]. split; [reflexivity|]. split; [reflexivity|].
  apply (one_full_write_or_none Sample.libs Sample.second_time_lucky
           Sample.writable "http://a/x" "bill 1" "out" 20 2 Sample.empty_world).
Defined.

(** ** The coordinator *)

Section coordinator.

Lemma dispatch_snoc urls u start_index :
  dispatch (urls ++ [u]) start_index
  = dispatch_step (dispatch urls start_index) u.
Proof. unfold dispatch. by rewrite fold_left_app. Qed.

(** The state after the dispatch loop. *)
Lemma dispatch_spec urls start_index :
  counter (dispatch urls start_index) = start_index - 1 + Z.of_nat (length urls)
  ∧ submitted (dispatch urls start_index)
    = imap (λ i url, Call url ("bill " +:+ pretty (start_index + Z.of_nat i))) urls
  ∧ ∀ future, future_to_info (dispatch urls start_index) !! future = urls !! future.
Proof.
  induction urls as [|u urls (Hc & Hs & Hf)] using rev_ind.
  - split_and!; [simpl; lia|done|]. intros future. apply lookup_empty.
  - rewrite dispatch_snoc. unfold dispatch_step. cbn [counter submitted future_to_info].
    rewrite Hc, Hs, length_imap, length_app, imap_app. split_and!.
    + simpl. lia.
    + simpl.
      by replace (start_index - 1 + Z.of_nat (length urls) + 1)
        with (start_index + Z.of_nat (length urls + 0)) by lia.
    + intros future. destruct (decide (future = length urls)) as [->|Hne].
      * by rewrite lookup_insert_eq, list_lookup_middle.
      * rewrite lookup_insert_ne, Hf by done.
        destruct (decide (future < length urls)%nat).
        -- by rewrite lookup_app_l.
        -- rewrite !lookup_ge_None_2; [done| |lia].
           rewrite length_app. simpl. lia.
Qed.

Lemma dispatch_lookup urls start_index i u :
  urls !! i = Some u →
  future_to_info (dispatch urls start_index) !! i = Some u
  ∧ submitted (dispatch urls start_index) !! i
    = Some (Call u ("bill " +:+ pretty (start_index + Z.of_nat i))).
Proof.
  intros Hi. destruct (dispatch_spec urls start_index) as (_ & -> & ->).
  split; [done|]. by rewrite list_lookup_imap, Hi.
Qed.

Lemma bill_inj (m n : Z) : "bill " +:+ pretty m = "bill " +:+ pretty n → m = n.
Proof. intros [= H]. by apply (inj pretty). Qed.

Context (L : pylibs).

Lemma attempt_body_result_indep url dest_name folder timeout got wr w w' :
  (attempt_body L url dest_name folder timeout got wr w).1
  = (attempt_body L url dest_name folder timeout got wr w').1.
Proof.
  unfold attempt_body. destruct got as [|status h [content|]]; [done|..];
    case_decide; try done.
  destruct (detect_extension _ _ _ _); [|done]. by destruct wr.
Qed.

(** What [download_one] returns does not depend on the files on disk or
    on the effects performed before. *)
Lemma download_loop_result_indep session storage url dest_name folder timeout
    attempts last_exc w w' :
  (download_loop L session storage url dest_name folder timeout attempts
     last_exc w).1
  = (download_loop L session storage url dest_name folder timeout attempts
       last_exc w').1.
Proof.
  revert last_exc w w'. induction attempts as [|k attempts IH];
    intros last_exc w w'; [done|].
  cbn [download_loop].
  pose proof (attempt_body_result_indep url dest_name folder timeout
                (session k) (storage k) w w') as Hb.
  destruct (attempt_body _ _ _ _ _ _ _ w) as [[name|msg] w1],
           (attempt_body _ _ _ _ _ _ _ w') as [[name'|msg'] w1'];
    simpl in Hb; try done; simplify_eq; [done|]. apply IH.
Qed.

(** [download_one] returns [(True, dest_name + "." + ext, None)] or
    [(False, None, error)]. *)
Lemma download_one_returns session storage url dest_name folder timeout
    max_retries w :
  (∃ ext, (download_one L session storage url dest_name folder timeout
             max_retries w).1
          = (true, Some (dest_name +:+ "." +:+ ext), None))
  ∨ (∃ error, (download_one L session storage url dest_name folder timeout
                 max_retries w).1
              = (false, None, error)).
Proof.
  unfold download_one.
  destruct (download_loop_trace L session storage url dest_name folder timeout
              (Py.range (max_retries + 1)) None w)
    as (_ & _ & _ & _ & _ & _
        & [(_ & _ & [error ->] & _)
          | (_ & _ & _ & _ & ext & _ & _ & _ & _ & _ & -> & _)]);
    by eauto.
Qed.

Context (net : nat → Z → get_result) (store : nat → Z → write_result).
Context (folder : string) (timeout max_retries : Z).

Lemma collect_step_results d st future :
  results (collect_step L net store folder timeout max_retries d st future)
  = results st
    ++ option_list (future_outcome L net store folder timeout max_retries d future).
Proof.
  unfold collect_step, future_outcome.
  destruct (future_to_info d !! future) as [url|]; [|by rewrite app_nil_r].
  destruct (submitted d !! future) as [c|]; [|by rewrite app_nil_r].
  pose proof (download_loop_result_indep (net future) (store future)
                (call_url c) (call_dest_name c) folder timeout
                (Py.range (max_retries + 1)) None (disk st) (World ∅ [])) as Hw.
  fold (download_one L (net future) (store future) (call_url c)
          (call_dest_name c) folder timeout max_retries (disk st)) in Hw.
  fold (download_one L (net future) (store future) (call_url c)
          (call_dest_name c) folder timeout max_retries (World ∅ [])) in Hw.
  rewrite <-Hw.
  destruct (download_one _ _ _ _ _ _ _ _ (disk st))
    as [[[success name] error] w1].
  by destruct success.
Qed.

Lemma collect_results d completion st :
  results (fold_left (collect_step L net store folder timeout max_retries d)
      completion st)
  = results st
    ++ omap (future_outcome L net store folder timeout max_retries d) completion.
Proof.
  revert st. induction completion as [|future completion IH]; intros st.
  - by rewrite app_nil_r.
  - simpl. rewrite IH, collect_step_results, <-app_assoc. f_equal.
    by destruct (future_outcome _ _ _ _ _ _ _).
Qed.

(** The entry of the future of the [i]-th link. *)
Lemma future_outcome_spec urls start_index i u :
  urls !! i = Some u →
  ∃ r, future_outcome L net store folder timeout max_retries
         (dispatch urls start_index) i = Some r
       ∧ outcome_url r = u
       ∧ (outcome_ok r = true →
          ∃ ext, outcome_name r
                 = Some ("bill " +:+ pretty (start_index + Z.of_nat i)
                         +:+ "." +:+ ext)).
Proof.
  intros Hi. unfold future_outcome.
  destruct (dispatch_lookup urls start_index i u Hi) as [-> ->].
  cbn [call_url call_dest_name].
  destruct (download_one_returns (net i) (store i) u
              ("bill " +:+ pretty (start_index + Z.of_nat i)) folder timeout
              max_retries (World ∅ [])) as [[ext ->]|[error ->]].
  - eexists. split_and!; [done|done|]. intros _. by exists ext.
  - eexists. by split_and!.
Qed.

Lemma outcome_urls urls start_index completion :
  Forall (λ i, i < length urls)%nat completion →
  outcome_url
    <$> omap (future_outcome L net store folder timeout max_retries
                (dispatch urls start_index)) completion
  = omap (λ i, urls !! i) completion.
Proof.
  induction 1 as [|i completion Hi _ IH]; [done|].
  apply lookup_lt_is_Some in Hi as [u Hu].
  destruct (future_outcome_spec urls start_index i u Hu) as (r & Hr & Hru & _).
  rewrite (omap_cons_Some _ _ _ _ Hr),
    (omap_cons_Some (λ i, urls !! i) i u completion Hu).
  by rewrite fmap_cons, IH, Hru.
Qed.

Lemma omap_lookup_all {A} (l : list A) : omap (λ i, l !! i) (seq 0 (length l)) = l.
Proof.
  transitivity (omap (λ i, l !! i ≫= Some) (seq 0 (length l))).
  - apply list_omap_ext, Forall2_same_length_lookup_2; [done|].
    intros i a b Ha Hb. simplify_eq. by destruct (l !! a).
  - rewrite omap_lookup_seq. clear. induction l; [done|]. simpl. by f_equal.
Qed.

End coordinator.

Section run.

Context (L : pylibs) (net : nat → Z → get_result).
Context (store : nat → Z → write_result).
Context (unique_urls : list string) (folder : string).
Context (start_index timeout max_retries : Z).

Lemma start_download_results completion w st :
  start_download L net store unique_urls folder start_index timeout max_retries
    completion w = Some st →
  results st
  = omap (future_outcome L net store folder timeout max_retries
            (dispatch unique_urls start_index)) completion.
Proof.
  unfold start_download. destruct unique_urls as [|u urls]; [done|].
  intros [= <-]. by rewrite collect_results.
Qed.

Lemma partition_by_flag (l : list outcome) :
  (length (filter (λ r, outcome_ok r = true) l)
   + length (filter (λ r, outcome_ok r = false) l) = length l)%nat
  ∧ succeeded_links l ++ failed_links l ≡ₚ outcome_url <$> l.
Proof.
  unfold succeeded_links, failed_links. induction l as [|r l [IHn IHp]]; [done|].
  rewrite !filter_cons. destruct (outcome_ok r) eqn:Hr.
  - rewrite decide_True, decide_False by done. split; [simpl; lia|].
    rewrite !fmap_cons. simpl. by rewrite IHp.
  - rewrite decide_False, decide_True by done. split; [simpl; lia|].
    rewrite !fmap_cons, <-Permutation_middle. by rewrite IHp.
Qed.

(** C1. The calls are submitted in input order with the names
    [bill S], [bill S+1], ..., [bill S+M-1], all different; and whatever
    the order in which the futures complete, the entry of the [i]-th link
    in [results] carries, when it is a success, a file name that is
    [bill S+i] followed by a dot and an extension. *)
Theorem names_in_input_order :
  let d := dispatch unique_urls start_index in
  call_url <$> submitted d = unique_urls
  ∧ call_dest_name <$> submitted d
    = (λ i : nat, "bill " +:+ pretty (start_index + Z.of_nat i))
        <$> seq 0 (length unique_urls)
  ∧ NoDup (call_dest_name <$> submitted d)
  ∧ ∀ completion w st,
      completion ≡ₚ seq 0 (length unique_urls) →
      start_download L net store unique_urls folder start_index timeout max_retries
        completion w = Some st →
      ∀ i u, unique_urls !! i = Some u →
        ∃ r, r ∈ results st ∧ outcome_url r = u
             ∧ (outcome_ok r = true →
                ∃ ext, outcome_name r
                       = Some ("bill " +:+ pretty (start_index + Z.of_nat i)
                               +:+ "." +:+ ext)).
Proof.
  intros d. subst d.
  destruct (dispatch_spec unique_urls start_index) as (_ & Hs & _).
  assert (call_dest_name <$> submitted (dispatch unique_urls start_index)
          = (λ i : nat, "bill " +:+ pretty (start_index + Z.of_nat i))
              <$> seq 0 (length unique_urls)) as Hnames.
  { rewrite Hs, fmap_imap. by rewrite <-imap_seq_0. }
  split_and!.
  - rewrite Hs, fmap_imap.
    rewrite <-(list_fmap_id unique_urls) at 2. by rewrite <-imap_const.
  - done.
  - rewrite Hnames. apply NoDup_fmap_2_strong; [|apply NoDup_seq].
    intros i j _ _ Hij%bill_inj. lia.
  - intros completion w st Hperm Hst i u Hi.
    destruct (future_outcome_spec L net store folder timeout max_retries
                unique_urls start_index i u Hi) as (r & Hr & Hu & Hname).
    exists r. split_and!; [|done|done].
    rewrite (start_download_results _ _ _ Hst), list_elem_of_omap.
    exists i. split; [|done]. rewrite Hperm. apply elem_of_seq.
    apply lookup_lt_Some in Hi. lia.
Qed.

(** C8. At the end of a run over a list without duplicates, in which every
    future has completed once, the successes and the failures add up to
    the number of links, [results] holds one entry per link, and every
    link is among the successes or among the failures and not in both. *)
Theorem one_outcome_per_url completion w st :
  NoDup unique_urls →
  completion ≡ₚ seq 0 (length unique_urls) →
  start_download L net store unique_urls folder start_index timeout max_retries
    completion w = Some st →
  succ (results st) + fail (results st) = Z.of_nat (length unique_urls)
  ∧ length (results st) = length unique_urls
  ∧ (outcome_url <$> results st) ≡ₚ unique_urls
  ∧ ∀ u, u ∈ unique_urls →
      (u ∈ succeeded_links (results st) ∧ u ∉ failed_links (results st))
      ∨ ((u ∉ succeeded_links (results st)) ∧ u ∈ failed_links (results st)).
Proof.
  intros Hnodup Hperm Hst.
  assert ((outcome_url <$> results st) ≡ₚ unique_urls) as Hurls.
  { rewrite (start_download_results _ _ _ Hst), outcome_urls.
    - by rewrite Hperm, omap_lookup_all.
    - apply Forall_forall. intros i. rewrite Hperm, elem_of_seq. lia. }
  assert (length (results st) = length unique_urls) as Hlen.
  { by rewrite <-(length_fmap outcome_url), Hurls. }
  destruct (partition_by_flag (results st)) as [Hcount Hpart].
  split_and!; [unfold succ, fail; lia|done|done|].
  intros u Hu. rewrite <-Hurls, <-Hpart in Hnodup, Hu.
  apply NoDup_app in Hnodup as (_ & Hdisj & _).
  apply elem_of_app in Hu as [Hu|Hu].
  - left. split; [done|]. by apply Hdisj.
  - right. split; [|done]. intros Hs. by apply (Hdisj u).
Qed.

End run.

(** C8 on three links, the second of which fails; the futures complete in
    the order third, first, second. *)
Lemma one_outcome_per_url_witness :
  NoDup Sample.links
  ∧ [2; 0; 1]%nat ≡ₚ seq 0 (length Sample.links)
  ∧ ∃ st,
      start_download Sample.libs Sample.net Sample.store Sample.links "out" 5 20 0
        [2; 0; 1]%nat Sample.empty_world = Some st
      ∧ results st
        = [("http://a/3", Some "bill 7.jpg", true, None);
           ("http://a/1.png", Some "bill 5.jpg", true, None);
           ("http://a/2", None, false, Some "HTTP 404")]
      ∧ succ (results st) + fail (results st) = Z.of_nat (length Sample.links)
      ∧ length (results st) = length Sample.links
      ∧ (outcome_url <$> results st) ≡ₚ Sample.links
      ∧ ∀ u, u ∈ Sample.links →
          (u ∈ succeeded_links (results st) ∧ u ∉ failed_links (results st))
          ∨ ((u ∉ succeeded_links (results st)) ∧ u ∈ failed_links (results st)).
Proof.
  assert (NoDup Sample.links) as Hnodup by (by apply (bool_decide_unpack _)).
  assert ([2; 0; 1]%nat ≡ₚ seq 0 (length Sample.links)) as Hperm
    by (by apply (bool_decide_unpack _)).
  split; [exact Hnodup|]. split; [exact Hperm|].
  eexists. split; [reflexivity|]. split; [reflexivity|].
  apply (one_outcome_per_url Sample.libs Sample.net Sample.store Sample.links
      "out" 5 20 0
           [2; 0; 1]%nat Sample.empty_world); [exact Hnodup|exact Hperm|reflexivity].
Defined.

(** ** Scenarios *)

(** A column [link] with a link, the same link again, and a text that is
    no link. *)
Example scenario_extract :
  unique_urls
    [Column "link" [CellText "http://a/x.jpg"; CellText "http://a/x.jpg";
                    CellText "not a url"]]
  = ["http://a/x.jpg"].
Proof. reflexivity. Qed.

(** A PNG signature wins over the declared content type and the URL. *)
Example scenario_png :
  detect_extension Sample.libs [Byte.x89; Byte.x50; Byte.x4e; Byte.x47; Byte.x0d]
    (Some "image/jpeg") "http://a/x.gif"
  = Ok "png".
Proof. reflexivity. Qed.

(** A URL path that ends in a dot gives the empty extension. *)
Example scenario_trailing_dot :
  detect_extension Sample.libs [] None "http://a/x." = Ok "".
Proof. reflexivity. Qed.

(** One link answered by a JPEG: the file [bill 1.jpg] under the folder,
    one success. *)
Example scenario_one_link :
  (λ st, (results st, map_to_list (files (disk st))))
    <$> start_download Sample.libs
          (λ _, Sample.always (GetResponse 200 None (Ok Sample.jpeg_bytes)))
          Sample.store ["http://a/x.jpg"] "images_downloaded" 1 20 2 [0%nat]
          Sample.empty_world
  = Some ([("http://a/x.jpg", Some "bill 1.jpg", true, None)],
          [("images_downloaded/bill 1.jpg", Sample.jpeg_bytes)]).
Proof. reflexivity. Qed.

(** Three links, the second answered by a 404 every time: two successes,
    one failure, and the failure list holds the second link. *)
Example scenario_one_failure :
  (λ st, (succ (results st), fail (results st), failed_links (results st)))
    <$> start_download Sample.libs Sample.net Sample.store Sample.links "out" 1 20 2
          [0; 2; 1]%nat Sample.empty_world
  = Some (2, 1, ["http://a/2"]).
Proof. reflexivity. Qed.

(** The destination folder is not there: [open] raises at each of the
    three attempts, and the link answered by a 200 is reported as failed,
    with the message of the last exception and without a file. *)
Example scenario_no_folder :
  (λ r : fetched * world, (r.1, map_to_list (files r.2), length (gets r.2)))
    (download_one Sample.libs
       (Sample.always (GetResponse 200 None (Ok Sample.jpeg_bytes)))
       Sample.no_folder "http://a/x" "bill 1" "nodir" 20 2 Sample.empty_world)
  = ((false, None, Some "[Errno 2] No such file or directory"), [], 3%nat).
Proof. reflexivity. Qed.

(** The disk is full during the first attempt of the third link and has
    room again at the second attempt: the file cut short by the first
    attempt is written over, and the run ends with three whole files. *)
Example scenario_disk_full_once :
  (λ st, (succ (results st), size (files (disk st)),
          files (disk st) !! "out/bill 3.jpg", length (gets (disk st))))
    <$> start_download Sample.libs
          (λ _, Sample.always (GetResponse 200 None (Ok Sample.jpeg_bytes)))
          Sample.store_full_once Sample.links "out" 1 20 2 [0; 2; 1]%nat
          Sample.empty_world
  = Some (3, 3%nat, Some Sample.jpeg_bytes, 4%nat).
Proof. reflexivity. Qed.

(** Trimming, letter case and repetition: the second cell is kept apart
    from the first (the comparison of texts is case-sensitive), the last
    cell of the second column repeats the first link. *)
Example scenario_mixed :
  find_urls_in_df Sample.mixed
  = ["http://a/x.jpg"; "HTTP://a/x.jpg"; "https://b/y"; "http://a/x.jpg"]
  ∧ unique_urls Sample.mixed
    = ["http://a/x.jpg"; "HTTP://a/x.jpg"; "https://b/y"].
Proof. split; reflexivity. Qed.

(** * Further properties *)

(** ** Decimal forms *)

Section decimal.

Lemma contains_cons c a s :
  Py.contains c (String a s) = true ↔ a = c ∨ Py.contains c s = true.
Proof.
  simpl. destruct (decide (a = c)) as [Hac|Hac]; [tauto|].
  split; [tauto|]. by intros [?|?].
Qed.

Lemma contains_app c s t :
  Py.contains c (s +:+ t) = true ↔ Py.contains c s = true ∨ Py.contains c t = true.
Proof.
  induction s as [|a s IH].
  - change ("" +:+ t) with t. simpl. split; [tauto|]. by intros [?|?].
  - change (String a s +:+ t) with (String a (s +:+ t)).
    rewrite !contains_cons, IH. tauto.
Qed.

Lemma contains_false_iff c s :
  Py.contains c s = false ↔ ¬ Py.contains c s = true.
Proof. destruct (Py.contains c s); naive_solver. Qed.

Lemma pretty_N_char_decimal x : pretty_N_char x ∈ decimal_chars.
Proof.
  unfold pretty_N_char, decimal_chars. simpl.
  repeat case_match; set_solver.
Qed.

Lemma pretty_N_go_chars x s c :
  Py.contains c (pretty_N_go x s) = true →
  Py.contains c s = true ∨ c ∈ decimal_chars.
Proof.
  revert s. induction (N.lt_wf_0 x) as [x _ IH]; intros s.
  destruct (decide (x = 0%N)) as [->|Hx]; [rewrite pretty_N_go_0; tauto|].
  rewrite pretty_N_go_step by lia.
  intros [Hc|Hc]%IH; [|tauto|].
  - apply contains_cons in Hc as [<-|Hc]; [|tauto].
    right. apply pretty_N_char_decimal.
  - apply N.div_lt; lia.
Qed.

Lemma pretty_N_chars (x : N) c :
  Py.contains c (pretty x) = true → c ∈ decimal_chars.
Proof.
  unfold pretty, pretty_N. case_decide.
  - simpl. case_decide; [|done]. intros _. subst c. unfold decimal_chars. set_solver.
  - intros [Hc|Hc]%pretty_N_go_chars; done.
Qed.

(** The decimal form of an integer holds digits and the minus sign only. *)
Lemma pretty_Z_chars (n : Z) c :
  Py.contains c (pretty n) = true → c ∈ decimal_chars.
Proof.
  unfold pretty, pretty_Z. destruct n as [|x|x].
  - simpl. case_decide; [|done]. intros _. subst c. unfold decimal_chars. set_solver.
  - apply (pretty_N_chars (N.pos x)).
  - intros [Hc|Hc]%contains_app.
    + simpl in Hc. case_decide; [|done]. subst c. unfold decimal_chars. set_solver.
    + by apply (pretty_N_chars (N.pos x)).
Qed.

Lemma decimal_chars_plain :
  Forall (λ c, Py.isspace c = false ∧ Py.lower_char c ≠ "h"%char
               ∧ c ≠ "."%char ∧ c ≠ "/"%char) decimal_chars.
Proof. unfold decimal_chars. simpl. repeat constructor; done. Qed.

Lemma pretty_Z_no_dot (n : Z) : Py.contains "." (pretty n) = false.
Proof.
  apply contains_false_iff. intros Hc%pretty_Z_chars.
  destruct (proj1 (Forall_forall _ _) decimal_chars_plain _ Hc) as (_ & _ & ? & _).
  done.
Qed.

End decimal.

(** ** More on the extractor *)

Section more_extractor.

Lemma strip_head a t :
  Py.isspace a = false → ∃ r, Py.strip (String a t) = String a r.
Proof.
  intros Ha. unfold Py.strip. rewrite lstrip_nonspace by done.
  by apply rstrip_head.
Qed.

Lemma is_link_head a r : Py.lower_char a ≠ "h"%char → is_link (String a r) = false.
Proof.
  intros Ha. unfold is_link. simpl.
  destruct (decide ("h"%char = Py.lower_char a)) as [Heq|_]; [by destruct Ha|done].
Qed.

(** A number or a missing value, turned into text, is no link. *)
Lemma not_text_no_link c :
  is_text c = false → is_link (Py.strip (astype_str c)) = false.
Proof.
  destruct c as [s|n|]; [done| |done]. intros _. simpl.
  destruct (pretty n) as [|a t] eqn:E; [done|].
  assert (a ∈ decimal_chars) as Ha.
  { apply (pretty_Z_chars n). rewrite E. apply contains_cons. by left. }
  destruct (proj1 (Forall_forall _ _) decimal_chars_plain _ Ha) as (Hs & Hl & _).
  destruct (strip_head a t Hs) as [r ->]. by apply is_link_head.
Qed.

Lemma series_text_only col :
  filter (λ v, is_link v = true) (Py.strip <$> series (text_only col))
  = filter (λ v, is_link v = true) (Py.strip <$> series col).
Proof.
  unfold series, text_only. cbn [cells].
  induction (cells col) as [|c cs IH]; [done|].
  rewrite filter_cons. destruct (is_text c) eqn:Hc.
  - rewrite decide_True by done. rewrite !fmap_cons, !filter_cons, IH. done.
  - rewrite decide_False by done. rewrite IH, !fmap_cons, filter_cons.
    rewrite decide_False; [done|]. by rewrite not_text_no_link.
Qed.

Lemma column_major_app df1 df2 :
  column_major (df1 ++ df2) = column_major df1 ++ column_major df2.
Proof. unfold column_major. by rewrite fmap_app, join_app. Qed.

Lemma first_occurrences_app l1 l2 :
  first_occurrences (l1 ++ l2)
  = first_occurrences l1 ++ filter (λ y, y ∉ l1) (first_occurrences l2).
Proof.
  induction l1 as [|x l1 IH].
  - simpl. symmetry. apply filter_all, Forall_forall. intros y _.
    apply not_elem_of_nil.
  - cbn [app first_occurrences]. rewrite IH, filter_app, list_filter_filter.
    do 2 f_equal. apply list_filter_iff. intros y.
    rewrite not_elem_of_cons. tauto.
Qed.

(** X1. Cells that hold no text (numbers, missing values) never give a
    link: the raw list and the final list of a table are those of the
    table with such cells left out. *)
Theorem only_text_cells_count df :
  find_urls_in_df (text_only <$> df) = find_urls_in_df df
  ∧ unique_urls (text_only <$> df) = unique_urls df.
Proof.
  assert (find_urls_in_df (text_only <$> df) = find_urls_in_df df) as Hraw.
  { rewrite !find_urls_in_df_filter. induction df as [|col df IH]; [done|].
    rewrite fmap_cons.
    change (column_major (text_only col :: (text_only <$> df)))
      with (column_major ([text_only col] ++ (text_only <$> df))).
    change (column_major (col :: df)) with (column_major ([col] ++ df)).
    rewrite !column_major_app, !fmap_app, !filter_app, IH. f_equal.
    unfold column_major. simpl. rewrite !app_nil_r. apply series_text_only. }
  split; [done|]. unfold unique_urls. by rewrite Hraw.
Qed.

(** X2. Tables side by side: the raw list of [df1 ++ df2] is the raw list
    of [df1] followed by that of [df2], and the final list is the final
    list of [df1] followed by the links of [df2] that [df1] does not
    already give. *)
Theorem extraction_of_joined_tables df1 df2 :
  find_urls_in_df (df1 ++ df2) = find_urls_in_df df1 ++ find_urls_in_df df2
  ∧ unique_urls (df1 ++ df2)
    = unique_urls df1 ++ filter (λ u, u ∉ unique_urls df1) (unique_urls df2).
Proof.
  split.
  - by rewrite !find_urls_in_df_filter, column_major_app, fmap_app, filter_app.
  - rewrite !unique_urls_first_occurrences, column_major_app, fmap_app, filter_app.
    rewrite first_occurrences_app. f_equal. apply list_filter_iff. intros u.
    by rewrite first_occurrences_elem.
Qed.

Lemma first_occurrences_NoDup_id l : NoDup l → first_occurrences l = l.
Proof.
  induction 1 as [|x l Hx _ IH]; [done|]. simpl. rewrite IH. f_equal.
  apply filter_all, Forall_forall. by intros y Hy ->.
Qed.

(** The final list of a one-column table of trimmed, distinct links is the
    column itself. *)
Lemma unique_urls_of_links lbl (l : list string) :
  NoDup l → Forall (λ u, is_link u = true ∧ Py.strip u = u) l →
  unique_urls [Column lbl (CellText <$> l)] = l.
Proof.
  intros Hnd Hl. rewrite unique_urls_first_occurrences.
  unfold column_major, series. simpl. rewrite app_nil_r, <-!list_fmap_compose.
  rewrite <-(first_occurrences_NoDup_id l Hnd) at 2. f_equal.
  induction Hl as [|u l [Hu Hs] _ IH]; [done|].
  rewrite fmap_cons. simpl. rewrite filter_cons_True by (by rewrite Hs).
  rewrite Hs. f_equal. apply IH. by apply NoDup_cons in Hnd as [_ ?].
Qed.

Lemma unique_urls_links df :
  NoDup (unique_urls df)
  ∧ Forall (λ u, is_link u = true ∧ Py.strip u = u) (unique_urls df).
Proof.
  rewrite unique_urls_first_occurrences. split; [apply first_occurrences_NoDup|].
  apply Forall_forall. intros u.
  rewrite first_occurrences_elem, list_elem_of_filter, list_elem_of_fmap.
  intros [Hl (v & -> & _)]. split; [done|]. apply strip_idem.
Qed.

(** X3. Extraction is idempotent: a table whose single column holds the
    final list of [df] has that same list as its final list. *)
Theorem extraction_idempotent lbl df :
  unique_urls [Column lbl (CellText <$> unique_urls df)] = unique_urls df.
Proof.
  destruct (unique_urls_links df) as [Hnd Hl]. by apply unique_urls_of_links.
Qed.

End more_extractor.

(** ** More on the sniffer *)

Section more_sniffer.

Lemma split_head_id c t : Py.contains c t = false → Py.split_head c t = t.
Proof.
  induction t as [|a t IH]; [done|]. simpl.
  destruct (decide (a = c)); [done|]. intros Ht. by rewrite IH.
Qed.

Lemma split_head_app c t p :
  Py.contains c t = false → Py.split_head c (t +:+ String c p) = t.
Proof.
  induction t as [|a t IH].
  - intros _. change ("" +:+ String c p) with (String c p). simpl.
    by rewrite decide_True.
  - change (String a t +:+ String c p) with (String a (t +:+ String c p)). simpl.
    destruct (decide (a = c)); [done|]. intros Ht. by rewrite IH.
Qed.

Lemma contains_lstrip_char c d s :
  Py.contains c (Py.lstrip_char d s) = true → Py.contains c s = true.
Proof.
  induction s as [|a s IH]; [done|]. cbn [Py.lstrip_char].
  destruct (decide (a = d)); [|done]. intros Hc%IH. apply contains_cons. by right.
Qed.

Lemma contains_after_last c d s t :
  Py.after_last d s = Some t → Py.contains c t = true → Py.contains c s = true.
Proof.
  revert t. induction s as [|a s IH]; intros t; [done|]. cbn [Py.after_last].
  destruct (Py.after_last d s) as [t'|].
  - intros [= <-] Hc. apply contains_cons. right. by eapply IH.
  - destruct (decide (a = d)); [|done]. intros [= <-] Hc.
    apply contains_cons. by right.
Qed.

(** The extension [splitext] gives holds no slash. *)
Lemma splitext_ext_no_slash p : Py.contains "/" (Py.splitext_ext p) = false.
Proof.
  unfold Py.splitext_ext.
  assert (Py.contains "/" (default p (Py.after_last "/" p)) = false) as Hbase.
  { destruct (Py.after_last "/" p) as [t|] eqn:E; simpl.
    - by eapply after_last_Some.
    - by apply after_last_None. }
  destruct (Py.after_last "." _) as [t|] eqn:E; [|done].
  apply contains_false_iff. intros [Hc|Hc]%contains_cons; [done|].
  eapply contains_after_last in Hc; [|done].
  apply contains_lstrip_char in Hc. congruence.
Qed.

(** X4. The parameters of a declared content type do not count: a content
    type [t; params] is sniffed as [t] alone; and a response without the
    header (read as the empty text) is sniffed as one with no content
    type. *)
Theorem content_type_parameters_ignored L content t params url :
  t ≠ "" → Py.contains ";" t = false →
  detect_extension L content (Some (t +:+ ";" +:+ params)) url
  = detect_extension L content (Some t) url
  ∧ detect_extension L content (Some "") url = detect_extension L content None url.
Proof.
  intros Ht Hsemi. split; [|done]. unfold detect_extension, guessed_from.
  change (t +:+ ";" +:+ params) with (t +:+ String ";" params).
  rewrite split_head_app, split_head_id by done.
  destruct t as [|a t]; [done|]. done.
Qed.

(** X5. When neither the signature nor the content type decides, the
    extension that [detect_extension] returns has at most 5 characters and
    holds no dot and no slash, whatever the URL. *)
Theorem url_extension_is_short L content content_type url e :
  filetype_guess L content = None →
  guessed_from L content_type = None ∨ guessed_from L content_type = Some "" →
  detect_extension L content content_type url = Ok e →
  (String.length e ≤ 5)%nat
  ∧ Py.contains "." e = false ∧ Py.contains "/" e = false.
Proof.
  intros Hft Hg.
  destruct (detect_extension_cases L content content_type url)
    as [(e0 & Hft' & _) | [(g & _ & Hg' & Hne & _) | (_ & _ & ->)]].
  - congruence.
  - destruct Hg; congruence.
  - destruct (urlparse_path L url) as [path|msg]; [|done].
    pose proof (splitext_ext_no_slash path) as Hslash.
    destruct (splitext_ext_shape path) as [Hext|(t & Hext & Hdot)];
      rewrite Hext in *.
    + simpl. intros [= <-]. split_and!; [simpl; lia|done|done].
    + rewrite lstrip_dot_ext by done. cbn [Py.truthy andb]. unfold Py.len.
      destruct (Z.leb_spec (Z.of_nat (String.length (String "." t))) 6) as [Hle|_].
      * intros [= <-]. split_and!; [simpl in Hle; lia|done|].
        apply contains_false_iff. intros Hc. apply contains_false_iff in Hslash.
        apply Hslash, contains_cons. by right.
      * intros [= <-]. split_and!; [simpl; lia|done|done].
Qed.

End more_sniffer.

(** X4 on an image type with a charset parameter. *)
Lemma content_type_parameters_ignored_witness :
  "image/png" ≠ "" ∧ Py.contains ";" "image/png" = false
  ∧ detect_extension Sample.libs [] (Some ("image/png" +:+ ";" +:+ " charset=x"))
      "http://a/x"
    = detect_extension Sample.libs [] (Some "image/png") "http://a/x"
  ∧ detect_extension Sample.libs [] (Some "") "http://a/x"
    = detect_extension Sample.libs [] None "http://a/x".
Proof.
  split; [done|]. split; [done|].
  by apply (content_type_parameters_ignored Sample.libs [] "image/png"
              " charset=x" "http://a/x").
Defined.

(** X5 on a URL whose path has a long last dot-suffix and on one with a
    short one. *)
Lemma url_extension_is_short_witness :
  filetype_guess Sample.libs [] = None
  ∧ (guessed_from Sample.libs None = None ∨ guessed_from Sample.libs None = Some "")
  ∧ detect_extension Sample.libs [] None "http://a/b.c/photo.JPeG?x=1.5/2" = Ok "JPeG"
  ∧ (String.length "JPeG" ≤ 5)%nat
  ∧ Py.contains "." "JPeG" = false ∧ Py.contains "/" "JPeG" = false.
Proof.
  split; [done|]. split; [by left|]. split; [done|].
  apply (url_extension_is_short Sample.libs [] None
           "http://a/b.c/photo.JPeG?x=1.5/2" "JPeG"); [done|by left|done].
Defined.

(** ** More on the fetcher *)

Section more_fetcher.

Context (L : pylibs) (session : Z → get_result) (storage : Z → write_result).
Context (url dest_name folder : string) (timeout : Z).

Lemma attempt_body_failure got wr msg w :
  attempt_failure L url got wr = Some msg →
  ∃ w1,
    attempt_body L url dest_name folder timeout got wr w = (Failed msg, w1)
    ∧ events w1 = events w ++ [EvGet url timeout]
    ∧ (partial wr = false → files w1 = files w).
Proof.
  intros Hmsg.
  destruct (attempt_body_cases L url dest_name folder timeout got wr w)
    as [(m & Hf & ->)
       | [(h & content & ext & written & m & _ & _ & -> & Hf & ->)
         | (h & content & ext & -> & Hd & -> & _)]].
  - rewrite Hf in Hmsg. injection Hmsg as ->. by eexists.
  - rewrite Hf in Hmsg. injection Hmsg as ->. by eexists.
  - exfalso. unfold attempt_failure in Hmsg.
    rewrite decide_True in Hmsg by done. by rewrite Hd in Hmsg.
Qed.

Lemma download_loop_failures attempts last_exc w :
  Forall (λ k, is_Some (attempt_failure L url (session k) (storage k)))
    attempts →
  ∃ w',
    download_loop L session storage url dest_name folder timeout attempts
      last_exc w
    = ((false, None,
        match last attempts with
        | Some k => attempt_failure L url (session k) (storage k)
        | None => last_exc
        end), w')
    ∧ events w' = events w ++ failure_trace url timeout attempts
    ∧ (Forall (λ k, partial (storage k) = false) attempts →
       files w' = files w).
Proof.
  intros Hall. revert last_exc w.
  induction Hall as [|k attempts [msg Hk] _ IH]; intros last_exc w.
  - exists w. simpl. unfold failure_trace. simpl. by rewrite app_nil_r.
  - cbn [download_loop].
    destruct (attempt_body_failure _ _ _ w Hk) as (w1 & -> & Hev1 & Hfiles1).
    destruct (IH (Some msg) (do_sleep (backoff k) w1))
      as (w' & -> & Hev & Hfiles).
    exists w'. split_and!.
    + do 2 f_equal. destruct attempts as [|k' attempts]; [by simpl; rewrite Hk|].
      rewrite last_cons_cons.
      destruct (last (k' :: attempts)) eqn:E; [done|]. by apply last_None in E.
    + rewrite Hev. unfold failure_trace. rewrite bind_cons.
      cbn [do_sleep files events]. rewrite Hev1. by rewrite <-!app_assoc.
    + intros [Hp Hps]%Forall_cons. rewrite Hfiles by done.
      cbn [do_sleep files]. by apply Hfiles1.
Qed.

(** The loop over [l1 ++ l2] is the loop over [l1], followed, when that
    one does not return success, by the loop over [l2]. *)
Lemma download_loop_app l1 l2 last_exc w :
  download_loop L session storage url dest_name folder timeout (l1 ++ l2) last_exc w
  = match download_loop L session storage url dest_name folder timeout l1
      last_exc w with
    | ((true, final_name, error), w') => ((true, final_name, error), w')
    | ((false, _, last_exc'), w') =>
        download_loop L session storage url dest_name folder timeout l2 last_exc' w'
    end.
Proof.
  revert last_exc w. induction l1 as [|k l1 IH]; intros last_exc w; [done|].
  cbn [app download_loop].
  destruct (attempt_body _ _ _ _ _ _ _ _) as [[name|msg] w1]; [done|]. apply IH.
Qed.

Lemma range_split k n :
  0 ≤ k ≤ n → Py.range (n + 1) = Py.range k ++ k :: seqZ (k + 1) (n - k).
Proof.
  intros Hk. unfold Py.range.
  replace (n + 1) with (k + (n - k + 1)) by lia.
  rewrite seqZ_app by lia. f_equal.
  rewrite seqZ_cons by lia.
  replace (Z.succ (0 + k)) with (k + 1) by lia.
  replace (Z.pred (n - k + 1)) with (n - k) by lia.
  done.
Qed.

(** X6. Retry until the first success: when the attempts before attempt
    [k] all fail, in whatever way, and attempt [k] (within the allowed
    ones) brings a 200 whose body can be read and sniffed and whose file
    is written without an exception, [download_one] returns success with
    the name [dest_name.ext]; its effects are the GET and the sleep of
    each failed attempt, then one GET and the write of the body, and
    nothing after; the file at [os.path.join(folder, dest_name.ext)]
    holds the body, and it is the one change to the files when no failed
    attempt has left a file cut short. *)
Theorem retry_until_first_success max_retries w k h content ext :
  0 ≤ k ≤ max_retries →
  (∀ j, 0 ≤ j < k →
        is_Some (attempt_failure L url (session j) (storage j))) →
  session k = GetResponse 200 h (Ok content) →
  detect_extension L content (Some (default "" h)) url = Ok ext →
  storage k = Written →
  (download_one L session storage url dest_name folder timeout max_retries w).1
  = (true, Some (dest_name +:+ "." +:+ ext), None)
  ∧ events (download_one L session storage url dest_name folder timeout
              max_retries w).2
    = events w ++ failure_trace url timeout (Py.range k)
      ++ [EvGet url timeout;
          EvWrite (Py.path_join folder (dest_name +:+ "." +:+ ext)) content]
  ∧ files (download_one L session storage url dest_name folder timeout
             max_retries w).2
    !! Py.path_join folder (dest_name +:+ "." +:+ ext) = Some content
  ∧ ((∀ j, 0 ≤ j < k → partial (storage j) = false) →
     files (download_one L session storage url dest_name folder timeout
              max_retries w).2
     = <[Py.path_join folder (dest_name +:+ "." +:+ ext) := content]> (files w)).
Proof.
  intros Hk Hfail Hget Hext Hwr. unfold download_one.
  rewrite (range_split k max_retries Hk), download_loop_app.
  destruct (download_loop_failures (Py.range k) None w)
    as (w' & -> & Hev & Hfiles).
  { apply Forall_forall. intros j [? ?]%elem_of_seqZ. apply Hfail. lia. }
  cbn [download_loop]. unfold attempt_body. rewrite Hget.
  rewrite decide_True by done. rewrite Hext, Hwr.
  cbn [do_write do_get fst snd files events]. split_and!.
  - done.
  - rewrite Hev. by rewrite <-!app_assoc.
  - apply lookup_insert_eq.
  - intros Hp. rewrite Hfiles; [done|].
    apply Forall_forall. intros j [? ?]%elem_of_seqZ. apply Hp. lia.
Qed.

(** X7. More retries do no harm: a call that succeeds with [max_retries]
    returns the same and has the same effects with any larger number of
    retries. *)
Theorem more_retries_keep_success max_retries more w :
  (download_one L session storage url dest_name folder timeout max_retries
      w).1.1.1 = true →
  max_retries ≤ more →
  download_one L session storage url dest_name folder timeout more w
  = download_one L session storage url dest_name folder timeout max_retries w.
Proof.
  unfold download_one. intros Hok Hle.
  destruct (decide (max_retries + 1 ≤ 0)) as [Hneg|Hpos].
  { unfold Py.range in Hok. by rewrite seqZ_nil in Hok by done. }
  assert (Py.range (more + 1)
          = Py.range (max_retries + 1) ++ seqZ (max_retries + 1) (more - max_retries))
    as ->.
  { unfold Py.range.
    replace (more + 1) with ((max_retries + 1) + (more - max_retries)) by lia.
    by rewrite seqZ_app by lia. }
  rewrite download_loop_app.
  destruct (download_loop _ _ _ _ _ _ _ (Py.range (max_retries + 1)) _ _)
    as [[[[] name] error] w']; [done|]. done.
Qed.

Lemma download_loop_error attempts last_exc w status name error :
  (download_loop L session storage url dest_name folder timeout attempts last_exc w).1
  = (status, name, error) →
  status = false → attempts ≠ [] ∨ is_Some last_exc → is_Some error.
Proof.
  revert last_exc w. induction attempts as [|k attempts IH]; intros last_exc w.
  - simpl. intros [= <- <- <-] _ [?|?]; done.
  - cbn [download_loop].
    destruct (attempt_body _ _ _ _ _ _ _ _) as [[final|msg] w1].
    + by intros [= <- <- <-].
    + intros Hr Hs _. eapply IH; [done|done|]. right. by eexists.
Qed.

(** X8. What [download_one] returns has the final name or the error, never
    both and, with [max_retries] not negative, never neither: it is
    [(True, dest_name.ext, None)] or [(False, None, reason)]. *)
Theorem name_or_error max_retries w :
  0 ≤ max_retries →
  (∃ ext, (download_one L session storage url dest_name folder timeout max_retries w).1
          = (true, Some (dest_name +:+ "." +:+ ext), None))
  ∨ (∃ reason, (download_one L session storage url dest_name folder timeout
      max_retries w).1
               = (false, None, Some reason)).
Proof.
  intros HR.
  destruct (download_one_returns L session storage url dest_name folder timeout
              max_retries w) as [Hs|[error He]]; [by left|right].
  assert (is_Some error) as [reason ->]; [|by eexists].
  eapply (download_loop_error (Py.range (max_retries + 1)) None w);
    [exact He|done|]. left. unfold Py.range. rewrite seqZ_cons by lia. done.
Qed.

Lemma total_backoff (n : nat) :
  foldr Qcplus 0%Qc (backoff <$> Py.range (Z.of_nat n))
  = (Q2Qc (1 # 4) * Qc_of_Z (Z.of_nat n * (Z.of_nat n + 1)))%Qc.
Proof.
  unfold Py.range. induction n as [|n IH].
  - change (Z.of_nat 0 * (Z.of_nat 0 + 1)) with 0. rewrite Z2Qc_inj_0.
    simpl. ring.
  - rewrite seqZ_S, fmap_app, foldr_app. simpl.
    assert (∀ (x : Qc) l, foldr Qcplus x l = (foldr Qcplus 0 l + x)%Qc) as Hacc.
    { intros x l. induction l as [|y l IHl]; simpl; [ring|]. rewrite IHl. ring. }
    rewrite Hacc, IH. unfold backoff.
    replace (Q2Qc (1 # 2)) with (Q2Qc (1 # 4) * Qc_of_Z 2)%Qc
      by (by apply Qc_is_canon).
    rewrite Qcplus_0_r.
    replace (Z.of_nat (S n) * (Z.of_nat (S n) + 1))
      with (Z.of_nat n * (Z.of_nat n + 1) + 2 * (0 + Z.of_nat n + 1)) by lia.
    repeat (rewrite Z2Qc_inj_add || rewrite Z2Qc_inj_mul). ring.
Qed.

(** X9. A call that fails has slept [0.5 + 1 + ... + 0.5 * (max_retries + 1)]
    seconds in all, that is [(max_retries + 1) * (max_retries + 2) / 4]. *)
Theorem total_sleep_of_failure max_retries w :
  0 ≤ max_retries →
  (download_one L session storage url dest_name folder timeout max_retries
      w).1.1.1 = false →
  total_sleep (download_one L session storage url dest_name folder timeout
      max_retries w).2
  = (total_sleep w
     + Q2Qc (1 # 4) * Qc_of_Z ((max_retries + 1) * (max_retries + 2)))%Qc.
Proof.
  intros HR. unfold download_one.
  destruct (download_loop_trace L session storage url dest_name folder timeout
              (Py.range (max_retries + 1)) None w)
    as (failed & rest & tail & Hsplit & _ & Hev & Hend).
  destruct Hend as [(-> & -> & _)
                   | (? & ? & ? & ? & ? & _ & _ & _ & _ & _ & -> & _)]; [|done].
  intros _. rewrite app_nil_r in Hsplit. subst failed.
  unfold total_sleep, sleeps. rewrite Hev, !omap_app, sleeps_failure_trace.
  simpl. rewrite app_nil_r, foldr_app.
  assert (∀ (x : Qc) l, foldr Qcplus x l = (foldr Qcplus 0 l + x)%Qc) as Hacc.
  { intros x l. induction l as [|y l IHl]; simpl; [ring|]. rewrite IHl. ring. }
  rewrite Hacc.
  replace (max_retries + 1) with (Z.of_nat (Z.to_nat (max_retries + 1))) at 1 by lia.
  rewrite total_backoff.
  replace (Z.of_nat (Z.to_nat (max_retries + 1))) with (max_retries + 1) by lia.
  replace (max_retries + 1 + 1) with (max_retries + 2) by lia. ring.
Qed.

(** X10. [download_one] issues at least one GET and at most
    [max_retries + 1], each for [url] with the given time-out; it issues
    all [max_retries + 1] of them when it fails. *)
Theorem requests_are_bounded max_retries w :
  0 ≤ max_retries →
  ∃ m : nat,
    gets (download_one L session storage url dest_name folder timeout max_retries w).2
    = gets w ++ replicate m (url, timeout)
    ∧ 1 ≤ Z.of_nat m ≤ max_retries + 1
    ∧ ((download_one L session storage url dest_name folder timeout max_retries w).1.1.1
       = false → Z.of_nat m = max_retries + 1).
Proof.
  intros HR. unfold download_one.
  destruct (download_loop_trace L session storage url dest_name folder timeout
              (Py.range (max_retries + 1)) None w)
    as (failed & rest & tail & Hsplit & _ & Hev & Hend).
  assert (length failed + length rest = Z.to_nat (max_retries + 1))%nat as Hlen.
  { apply (f_equal length) in Hsplit. unfold Py.range in Hsplit.
    rewrite length_seqZ, length_app in Hsplit. lia. }
  unfold gets. rewrite Hev, !omap_app, gets_failure_trace.
  destruct Hend as [(-> & -> & _)
                   | (k & rest' & h & content & ext & -> & _ & _ & _ & -> & ->
                      & _)].
  - exists (length failed). simpl in *. rewrite app_nil_r.
    split_and!; [done|lia|lia|lia].
  - exists (S (length failed)). rewrite replicate_S_end.
    rewrite length_cons in Hlen. split_and!; [done|lia|lia|done].
Qed.

End more_fetcher.

(** X6 on a call whose first attempt opens the file and fails on a full
    disk, and whose second attempt finds room. *)
Lemma retry_until_first_success_witness :
  0 ≤ 1 ≤ 2
  ∧ (∀ j, 0 ≤ j < 1 →
       is_Some (attempt_failure Sample.libs "http://a/x"
                  (Sample.always
                     (GetResponse 200 (Some "image/jpeg") (Ok Sample.jpeg_bytes))
                     j)
                  (Sample.store_full_once 2 j)))
  ∧ Sample.store_full_once 2 1 = Written
  ∧ (download_one Sample.libs
       (Sample.always (GetResponse 200 (Some "image/jpeg") (Ok Sample.jpeg_bytes)))
       (Sample.store_full_once 2) "http://a/x" "bill 1" "out" 20 2
       Sample.empty_world).1
    = (true, Some ("bill 1" +:+ "." +:+ "jpg"), None)
  ∧ events (download_one Sample.libs
              (Sample.always
                 (GetResponse 200 (Some "image/jpeg") (Ok Sample.jpeg_bytes)))
              (Sample.store_full_once 2) "http://a/x" "bill 1" "out" 20 2
              Sample.empty_world).2
    = events Sample.empty_world ++ failure_trace "http://a/x" 20 (Py.range 1)
      ++ [EvGet "http://a/x" 20;
          EvWrite (Py.path_join "out" ("bill 1" +:+ "." +:+ "jpg"))
            Sample.jpeg_bytes]
  ∧ files (download_one Sample.libs
             (Sample.always
                (GetResponse 200 (Some "image/jpeg") (Ok Sample.jpeg_bytes)))
             (Sample.store_full_once 2) "http://a/x" "bill 1" "out" 20 2
             Sample.empty_world).2
    !! Py.path_join "out" ("bill 1" +:+ "." +:+ "jpg") = Some Sample.jpeg_bytes
  ∧ ((∀ j, 0 ≤ j < 1 → partial (Sample.store_full_once 2 j) = false) →
     files (download_one Sample.libs
              (Sample.always
                 (GetResponse 200 (Some "image/jpeg") (Ok Sample.jpeg_bytes)))
              (Sample.store_full_once 2) "http://a/x" "bill 1" "out" 20 2
              Sample.empty_world).2
     = <[Py.path_join "out" ("bill 1" +:+ "." +:+ "jpg") := Sample.jpeg_bytes]>
         (files Sample.empty_world)).
Proof.
  assert (∀ j, 0 ≤ j < 1 →
            is_Some (attempt_failure Sample.libs "http://a/x"
                       (Sample.always
                          (GetResponse 200 (Some "image/jpeg")
                             (Ok Sample.jpeg_bytes)) j)
                       (Sample.store_full_once 2 j))) as Hfail.
  { intros j Hj. replace j with 0 by lia. by eexists. }
  split; [lia|]. split; [exact Hfail|]. split; [reflexivity|].
  apply (retry_until_first_success Sample.libs
           (Sample.always
              (GetResponse 200 (Some "image/jpeg") (Ok Sample.jpeg_bytes)))
           (Sample.store_full_once 2) "http://a/x" "bill 1" "out" 20 2
           Sample.empty_world 1 (Some "image/jpeg") Sample.jpeg_bytes "jpg");
    [lia|exact Hfail|reflexivity|reflexivity|reflexivity].
Defined.

(** X7 on the same call with one retry allowed, and then with five. *)
Lemma more_retries_keep_success_witness :
  (download_one Sample.libs Sample.second_time_lucky Sample.writable
      "http://a/x" "bill 1"
     "out" 20 1 Sample.empty_world).1.1.1 = true
  ∧ 1 ≤ 5
  ∧ download_one Sample.libs Sample.second_time_lucky Sample.writable
      "http://a/x" "bill 1"
      "out" 20 5 Sample.empty_world
    = download_one Sample.libs Sample.second_time_lucky Sample.writable
        "http://a/x" "bill 1"
        "out" 20 1 Sample.empty_world.
Proof.
  split; [reflexivity|]. split; [lia|].
  apply (more_retries_keep_success Sample.libs Sample.second_time_lucky Sample.writable
           "http://a/x" "bill 1" "out" 20 1 5 Sample.empty_world);
    [reflexivity|lia].
Defined.

(** X8 on a call without retries that meets a 404. *)
Lemma name_or_error_witness :
  0 ≤ 0
  ∧ ((∃ ext,
        (download_one Sample.libs (Sample.always (GetResponse 404 None (Ok [])))
            Sample.writable
           "http://a/x" "bill 1" "out" 20 0 Sample.empty_world).1
        = (true, Some ("bill 1" +:+ "." +:+ ext), None))
     ∨ (∃ reason,
          (download_one Sample.libs (Sample.always (GetResponse 404 None (Ok
              []))) Sample.writable
             "http://a/x" "bill 1" "out" 20 0 Sample.empty_world).1
          = (false, None, Some reason))).
Proof.
  split; [lia|].
  apply (name_or_error Sample.libs (Sample.always (GetResponse 404 None (Ok
      []))) Sample.writable
           "http://a/x" "bill 1" "out" 20 0 Sample.empty_world). lia.
Defined.

(** X9 at the default of two retries: three seconds. *)
Lemma total_sleep_of_failure_witness :
  0 ≤ 2
  ∧ (download_one Sample.libs Sample.three_failures Sample.writable "http://a/x"
      "bill 1" "out"
       20 2 Sample.empty_world).1.1.1 = false
  ∧ total_sleep (download_one Sample.libs Sample.three_failures Sample.writable
      "http://a/x"
                   "bill 1" "out" 20 2 Sample.empty_world).2
    = (total_sleep Sample.empty_world
       + Q2Qc (1 # 4) * Qc_of_Z ((2 + 1) * (2 + 2)))%Qc.
Proof.
  split; [lia|]. split; [reflexivity|].
  apply (total_sleep_of_failure Sample.libs Sample.three_failures
      Sample.writable "http://a/x"
           "bill 1" "out" 20 2 Sample.empty_world); [lia|reflexivity].
Defined.

(** X10 on three failures with two retries. *)
Lemma requests_are_bounded_witness :
  0 ≤ 2
  ∧ ∃ m : nat,
      gets (download_one Sample.libs Sample.three_failures Sample.writable
          "http://a/x" "bill 1"
              "out" 20 2 Sample.empty_world).2
      = gets Sample.empty_world ++ replicate m ("http://a/x", 20)
      ∧ 1 ≤ Z.of_nat m ≤ 2 + 1
      ∧ ((download_one Sample.libs Sample.three_failures Sample.writable
          "http://a/x" "bill 1"
            "out" 20 2 Sample.empty_world).1.1.1 = false →
         Z.of_nat m = 2 + 1).
Proof.
  split; [lia|].
  apply (requests_are_bounded Sample.libs Sample.three_failures Sample.writable
      "http://a/x"
           "bill 1" "out" 20 2 Sample.empty_world). lia.
Defined.

(** ** More on the run *)

Section names.

Lemma string_app_inj_l (a b1 b2 : string) : a +:+ b1 = a +:+ b2 → b1 = b2.
Proof.
  induction a as [|c a IH]; [done|].
  change (String c a +:+ b1) with (String c (a +:+ b1)).
  change (String c a +:+ b2) with (String c (a +:+ b2)).
  intros [= H]. by apply IH.
Qed.

Lemma path_join_inj folder n1 n2 :
  Py.startswith n1 "/" = false → Py.startswith n2 "/" = false →
  Py.path_join folder n1 = Py.path_join folder n2 → n1 = n2.
Proof.
  unfold Py.path_join. intros -> ->.
  destruct (negb (Py.truthy folder) || Py.endswith_slash folder).
  - apply string_app_inj_l.
  - intros H%string_app_inj_l. by apply (string_app_inj_l "/") in H.
Qed.

Lemma bill_name_inj (m n : Z) e1 e2 :
  "bill " +:+ pretty m +:+ "." +:+ e1 = "bill " +:+ pretty n +:+ "." +:+ e2 →
  m = n.
Proof.
  intros H%(string_app_inj_l "bill "). apply (f_equal (Py.split_head ".")) in H.
  change ("." +:+ e1) with (String "." e1) in H.
  change ("." +:+ e2) with (String "." e2) in H.
  rewrite !split_head_app in H by apply pretty_Z_no_dot.
  by apply (inj pretty).
Qed.

(** Two links of one run never share a path. *)
Lemma path_of_link_inj folder start_index i j path :
  path_of_link folder start_index i path →
  path_of_link folder start_index j path → i = j.
Proof.
  intros [e1 ->] [e2 H]. apply path_join_inj in H; [|done..].
  apply bill_name_inj in H. lia.
Qed.

End names.

Section more_run.

Context (L : pylibs) (net : nat → Z → get_result).
Context (store : nat → Z → write_result).
Context (unique_urls : list string) (folder : string).
Context (start_index timeout max_retries : Z).

(** What a call does to the disk, by what it returns. *)
Lemma download_one_effect session storage url dest_name w :
  (∀ p, ¬ own_path folder dest_name p →
        files (download_one L session storage url dest_name folder timeout
                 max_retries w).2 !! p = files w !! p)
  ∧ ((∃ ext content,
        (download_one L session storage url dest_name folder timeout
           max_retries w).1
        = (true, Some (dest_name +:+ "." +:+ ext), None)
        ∧ writes (download_one L session storage url dest_name folder timeout
                    max_retries w).2
          = writes w
            ++ [(Py.path_join folder (dest_name +:+ "." +:+ ext), content)]
        ∧ files (download_one L session storage url dest_name folder timeout
                   max_retries w).2
          !! Py.path_join folder (dest_name +:+ "." +:+ ext) = Some content
        ∧ ((∀ k, partial (storage k) = false) →
           files (download_one L session storage url dest_name folder timeout
                    max_retries w).2
           = <[Py.path_join folder (dest_name +:+ "." +:+ ext) := content]>
               (files w)))
     ∨ (∃ error,
          (download_one L session storage url dest_name folder timeout
             max_retries w).1 = (false, None, error)
          ∧ writes (download_one L session storage url dest_name folder
                      timeout max_retries w).2 = writes w
          ∧ ((∀ k, partial (storage k) = false) →
             files (download_one L session storage url dest_name folder
                      timeout max_retries w).2 = files w))).
Proof.
  unfold download_one. split; [intros p; apply download_loop_frame|].
  destruct (download_loop_trace L session storage url dest_name folder timeout
              (Py.range (max_retries + 1)) None w)
    as (failed & rest & tail & _ & _ & Hev & Hend).
  unfold writes. rewrite Hev, !omap_app, writes_failure_trace.
  destruct Hend as [(_ & -> & [error ->] & Hfiles)
                   | (k & rest' & h & content & ext & _ & _ & _ & _ & -> & ->
                      & Hlook & Hfiles)].
  - right. exists error. rewrite app_nil_r. split_and!; [done|done|].
    intros Hp. apply Hfiles, Forall_forall. by intros j _.
  - left. exists ext, content. split_and!; [done|done|done|].
    intros Hp. apply Hfiles, Forall_forall. by intros j _.
Qed.

(** One turn of the collection loop for the future of the [i]-th link. *)
Lemma collect_step_effect st i u :
  unique_urls !! i = Some u →
  ∃ r,
    results (collect_step L net store folder timeout max_retries
               (dispatch unique_urls start_index) st i) = results st ++ [r]
    ∧ outcome_url r = u
    ∧ (∀ p, ¬ path_of_link folder start_index i p →
            files (disk (collect_step L net store folder timeout max_retries
                           (dispatch unique_urls start_index) st i)) !! p
            = files (disk st) !! p)
    ∧ ((outcome_ok r = true
        ∧ ∃ ext content,
            outcome_name r
            = Some ("bill " +:+ pretty (start_index + Z.of_nat i) +:+ "." +:+ ext)
            ∧ writes (disk (collect_step L net store folder timeout max_retries
                              (dispatch unique_urls start_index) st i))
              = writes (disk st)
                ++ [(Py.path_join folder
                       ("bill " +:+ pretty (start_index + Z.of_nat i)
                        +:+ "." +:+ ext), content)]
            ∧ files (disk (collect_step L net store folder timeout max_retries
                             (dispatch unique_urls start_index) st i))
              !! Py.path_join folder
                   ("bill " +:+ pretty (start_index + Z.of_nat i)
                    +:+ "." +:+ ext) = Some content
            ∧ ((∀ k, partial (store i k) = false) →
               files (disk (collect_step L net store folder timeout max_retries
                              (dispatch unique_urls start_index) st i))
               = <[Py.path_join folder
                     ("bill " +:+ pretty (start_index + Z.of_nat i)
                      +:+ "." +:+ ext) := content]> (files (disk st))))
       ∨ (outcome_ok r = false
          ∧ writes (disk (collect_step L net store folder timeout max_retries
                            (dispatch unique_urls start_index) st i))
            = writes (disk st)
          ∧ ((∀ k, partial (store i k) = false) →
             files (disk (collect_step L net store folder timeout max_retries
                            (dispatch unique_urls start_index) st i))
             = files (disk st)))).
Proof.
  intros Hi. unfold collect_step.
  destruct (dispatch_lookup unique_urls start_index i u Hi) as [-> ->].
  cbn [call_url call_dest_name].
  destruct (download_one_effect (net i) (store i) u
              ("bill " +:+ pretty (start_index + Z.of_nat i)) (disk st))
    as [Hframe [(ext & content & Hr & Hw & Hl & Hf) | (error & Hr & Hw & Hf)]];
    destruct (download_one _ _ _ _ _ _ _ _ _) as [[[success name] err] w'];
    simpl in Hr, Hw, Hf, Hframe; simplify_eq.
  - eexists. split_and!; [done|done|done|]. left. split; [done|].
    by exists ext, content.
  - eexists. split_and!; [done|done|done|]. right. by split_and!.
Qed.

(** The counter and the log keep step with [results]. *)
Lemma collect_step_in_step d st future :
  done st = Z.of_nat (length (results st)) →
  log_lines st = log_line <$> results st →
  done (collect_step L net store folder timeout max_retries d st future)
  = Z.of_nat (length (results (collect_step L net store folder timeout max_retries
                                 d st future)))
  ∧ log_lines (collect_step L net store folder timeout max_retries d st future)
    = log_line <$> results (collect_step L net store folder timeout max_retries
                              d st future).
Proof.
  intros Hd Hl. unfold collect_step.
  destruct (future_to_info d !! future) as [url|]; [|done].
  destruct (submitted d !! future) as [c|]; [|done].
  destruct (download_one _ _ _ _ _ _ _ _ _) as [[[[] name] err] w']; simpl;
    rewrite length_app, fmap_app, Hl; simpl; split; (lia || done).
Qed.

Lemma collect_in_step d completion st :
  done st = Z.of_nat (length (results st)) →
  log_lines st = log_line <$> results st →
  done (fold_left (collect_step L net store folder timeout max_retries d) completion st)
  = Z.of_nat (length (results (fold_left (collect_step L net store folder timeout
                                            max_retries d) completion st)))
  ∧ log_lines (fold_left (collect_step L net store folder timeout max_retries d)
                 completion st)
    = log_line <$> results (fold_left (collect_step L net store folder timeout
                                         max_retries d) completion st).
Proof.
  revert st. induction completion as [|future completion IH]; intros st Hd Hl;
    [done|].
  simpl. destruct (collect_step_in_step d st future Hd Hl) as [Hd' Hl'].
  by apply IH.
Qed.

End more_run.

Section aggregate.

Context (L : pylibs) (net : nat → Z → get_result).
Context (store : nat → Z → write_result).
Context (unique_urls : list string) (folder : string).
Context (start_index timeout max_retries : Z).

(** What holds of the disk and of [results] while the futures of distinct
    links are collected, from a world in which nothing was written yet. *)
Lemma run_invariant w l :
  writes w = [] → NoDup l → Forall (λ i, i < length unique_urls)%nat l →
  let st := fold_left (collect_step L net store folder timeout max_retries
                         (dispatch unique_urls start_index))
              l (Collected 0 [] [] w) in
  (∀ p c, (p, c) ∈ writes (disk st) →
          ∃ i, i ∈ l ∧ path_of_link folder start_index i p)
  ∧ NoDup (writes (disk st)).*1
  ∧ (∀ p c, (p, c) ∈ writes (disk st) → files (disk st) !! p = Some c)
  ∧ (∀ p, (∀ i, i ∈ l → ¬ path_of_link folder start_index i p) →
          files (disk st) !! p = files w !! p)
  ∧ ((∀ i k, partial (store i k) = false) →
     ∀ p, p ∉ (writes (disk st)).*1 → files (disk st) !! p = files w !! p)
  ∧ (∀ r, r ∈ results st → outcome_ok r = true →
          ∃ name c, outcome_name r = Some name ∧ Py.truthy name = true
                    ∧ (Py.path_join folder name, c) ∈ writes (disk st))
  ∧ length (writes (disk st))
    = length (filter (λ r, outcome_ok r = true) (results st)).
Proof.
  intros Hw. induction l as [|i l IH] using rev_ind; intros Hnd Hall st.
  - subst st. simpl. rewrite Hw. split_and!; try done.
    + intros p c []%elem_of_nil.
    + constructor.
    + intros p c []%elem_of_nil.
    + intros r []%elem_of_nil.
  - apply NoDup_app in Hnd as (Hnd & Hi & _).
    apply Forall_app in Hall as [Hall Hlt].
    apply Forall_singleton, lookup_lt_is_Some in Hlt as [u Hu].
    specialize (IH Hnd Hall). cbv zeta in IH.
    subst st. rewrite fold_left_app. cbn [fold_left].
    set (st := fold_left _ l _) in *.
    destruct IH as (Ha & Hb & Hc & Hd & Hd' & He & Hf).
    assert (∀ q c, (q, c) ∈ writes (disk st) →
                   ¬ path_of_link folder start_index i q) as Hother.
    { intros q c Hin Hpi. destruct (Ha _ _ Hin) as (j & Hj & Hpj).
      assert (i = j) as <- by (by eapply path_of_link_inj).
      by apply (Hi i Hj), list_elem_of_singleton. }
    destruct (collect_step_effect L net store unique_urls folder start_index
                timeout max_retries st i u Hu)
      as (r & -> & _ & Hframe & [(Hok & ext & content & Hname & -> & Hl & Hclean)
                                | (Hok & -> & Hclean)]).
    + set (p := Py.path_join folder
                  ("bill " +:+ pretty (start_index + Z.of_nat i) +:+ "." +:+ ext))
        in *.
      assert (path_of_link folder start_index i p) as Hpi by (by exists ext).
      assert (p ∉ (writes (disk st)).*1) as Hfresh.
      { intros ([q c] & Hq & Hin)%list_elem_of_fmap. simpl in Hq. subst q.
        by apply (Hother _ _ Hin). }
      split_and!.
      * intros q c [Hin|Hin%list_elem_of_singleton]%elem_of_app.
        -- destruct (Ha _ _ Hin) as (j & Hj & Hpj). exists j.
           split; [|done]. apply elem_of_app. by left.
        -- injection Hin as -> ->. exists i. split; [|done].
           apply elem_of_app. right. by apply list_elem_of_singleton.
      * rewrite fmap_app. apply NoDup_app. split_and!; [done| |].
        -- intros q Hq Hq'%list_elem_of_singleton. simpl in Hq'. by subst q.
        -- apply NoDup_singleton.
      * intros q c [Hin|Hin%list_elem_of_singleton]%elem_of_app.
        -- rewrite Hframe by (by eapply Hother). by apply Hc.
        -- by injection Hin as -> ->.
      * intros q Hq. rewrite Hframe, Hd; [done| |].
        -- intros j Hj. apply Hq, elem_of_app. by left.
        -- apply Hq, elem_of_app. right. by apply list_elem_of_singleton.
      * intros Hp q Hq. rewrite fmap_app, not_elem_of_app in Hq.
        destruct Hq as [Hq Hq']. rewrite Hclean by done.
        rewrite lookup_insert_ne; [by apply Hd'|].
        intros <-. apply Hq', list_elem_of_singleton. done.
      * intros r' [Hin|Hin%list_elem_of_singleton]%elem_of_app Hok'.
        -- destruct (He _ Hin Hok') as (name & c & ? & ? & ?).
           exists name, c. split_and!; [done|done|]. apply elem_of_app. by left.
        -- subst r'. eexists _, content. split_and!; [exact Hname|done|].
           apply elem_of_app. right. by apply list_elem_of_singleton.
      * rewrite filter_app, !length_app, Hf. f_equal.
        by rewrite filter_cons_True.
    + split_and!; try done.
      * intros q c Hin. destruct (Ha _ _ Hin) as (j & Hj & Hpj). exists j.
        split; [|done]. apply elem_of_app. by left.
      * intros q c Hin. rewrite Hframe by (by eapply Hother). by apply Hc.
      * intros q Hq. rewrite Hframe, Hd; [done| |].
        -- intros j Hj. apply Hq, elem_of_app. by left.
        -- apply Hq, elem_of_app. right. by apply list_elem_of_singleton.
      * intros Hp q Hq. rewrite Hclean by done. by apply Hd'.
      * intros r' [Hin|Hin%list_elem_of_singleton]%elem_of_app Hok'.
        -- by apply He.
        -- subst r'. congruence.
      * rewrite filter_app, length_app, Hf.
        rewrite filter_cons_False by congruence. simpl. lia.
Qed.

Lemma start_download_fold completion w st :
  start_download L net store unique_urls folder start_index timeout max_retries
    completion w = Some st →
  st = fold_left (collect_step L net store folder timeout max_retries
                    (dispatch unique_urls start_index))
         completion (Collected 0 [] [] w).
Proof.
  unfold start_download. destruct unique_urls; [done|]. by intros [= <-].
Qed.

Lemma length_omap_lookup {A} (l : list A) (js : list nat) :
  Forall (λ i, i < length l)%nat js →
  length (omap (λ i, l !! i) js) = length js.
Proof.
  induction 1 as [|i js Hi _ IH]; [done|].
  apply lookup_lt_is_Some in Hi as [x Hx].
  rewrite (omap_cons_Some (λ i, l !! i) i x js Hx). simpl. by rewrite IH.
Qed.

(** X11. [results] is filled in the order of completion: its links are
    the links of the completed futures, in the order in which
    [as_completed] yields them. *)
Theorem results_follow_completion completion w st :
  Forall (λ i, i < length unique_urls)%nat completion →
  start_download L net store unique_urls folder start_index timeout max_retries
    completion w = Some st →
  outcome_url <$> results st = omap (λ i, unique_urls !! i) completion
  ∧ length (results st) = length completion.
Proof.
  intros Hall Hst.
  assert (outcome_url <$> results st = omap (λ i, unique_urls !! i) completion)
    as Hurls.
  { rewrite (start_download_results _ _ _ _ _ _ _ _ _ _ _ Hst).
    by apply outcome_urls. }
  split; [done|].
  by rewrite <-(length_fmap outcome_url), Hurls, length_omap_lookup.
Qed.

(** X12. The counter [done] and the log keep step with [results]: at the
    end of a run [done] is the number of entries, which is the number of
    links, and the log holds one line per entry, the line of that entry,
    in the same order. *)
Theorem progress_and_log_in_step completion w st :
  completion ≡ₚ seq 0 (length unique_urls) →
  start_download L net store unique_urls folder start_index timeout max_retries
    completion w = Some st →
  done st = Z.of_nat (length unique_urls)
  ∧ done st = Z.of_nat (length (results st))
  ∧ log_lines st = log_line <$> results st.
Proof.
  intros Hperm Hst. rewrite (start_download_fold _ _ _ Hst).
  destruct (collect_in_step L net store folder timeout max_retries
              (dispatch unique_urls start_index) completion
              (Collected 0 [] [] w)) as [Hd Hl]; [done|done|].
  split_and!; [|done|done]. rewrite Hd, <-(start_download_fold _ _ _ Hst).
  f_equal.
  assert (Forall (λ i, i < length unique_urls)%nat completion) as Hall.
  { apply Forall_forall. intros i. rewrite Hperm, elem_of_seq. lia. }
  rewrite <-(length_fmap outcome_url).
  rewrite (start_download_results _ _ _ _ _ _ _ _ _ _ _ Hst), outcome_urls by done.
  by rewrite length_omap_lookup, Hperm, length_seq.
Qed.


(** X14. In a run that starts with nothing written yet and collects every
    future at most once, no path is written in full twice, every file
    written in full still holds at the end what was written to it, and
    the files written in full are as many as the successes.  Every path
    that is not one of the paths [bill N.ext] of a collected link is as
    it was before the run; and when no write raises after its file was
    opened, so is every path that was not written in full. *)
Theorem every_path_written_once completion w st :
  writes w = [] → NoDup completion →
  Forall (λ i, i < length unique_urls)%nat completion →
  start_download L net store unique_urls folder start_index timeout max_retries
    completion w = Some st →
  NoDup (writes (disk st)).*1
  ∧ (∀ p c, (p, c) ∈ writes (disk st) → files (disk st) !! p = Some c)
  ∧ (∀ p, (∀ i, i ∈ completion → ¬ path_of_link folder start_index i p) →
          files (disk st) !! p = files w !! p)
  ∧ ((∀ i k, partial (store i k) = false) →
     ∀ p, p ∉ (writes (disk st)).*1 → files (disk st) !! p = files w !! p)
  ∧ Z.of_nat (length (writes (disk st))) = succ (results st).
Proof.
  intros Hw Hnd Hall Hst. rewrite (start_download_fold _ _ _ Hst).
  destruct (run_invariant w completion Hw Hnd Hall)
    as (_ & Hb & Hc & Hd & Hd' & _ & Hf).
  split_and!; [done|done|done|done|]. unfold succ. by rewrite Hf.
Qed.

Lemma zip_member_spec files r name data :
  zip_member folder files r = Some (name, data) ↔
  outcome_ok r = true ∧ outcome_name r = Some name ∧ Py.truthy name = true
  ∧ files !! Py.path_join folder name = Some data.
Proof.
  destruct r as [[[u [fname|]] ok] err];
    unfold zip_member, outcome_ok, outcome_name; simpl.
  - destruct ok, (Py.truthy fname) eqn:Ht; simpl;
      try (split; [done|intros (? & ? & ? & ?); congruence]).
    destruct (files !! Py.path_join folder fname) as [d|] eqn:Hf.
    + split; [by intros [= <- <-]|]. intros (_ & [= <-] & _ & Hd).
      rewrite Hf in Hd. congruence.
    + split; [done|]. intros (_ & [= <-] & _ & Hd). congruence.
  - split; [done|]. by intros (_ & ? & _).
Qed.

Lemma build_zip_names files (rs : list outcome) :
  (∀ r, r ∈ rs → outcome_ok r = true →
        ∃ name c, outcome_name r = Some name ∧ Py.truthy name = true
                  ∧ files !! Py.path_join folder name = Some c) →
  (build_zip folder rs files).*1
  = omap outcome_name (filter (λ r, outcome_ok r = true) rs).
Proof.
  unfold build_zip. induction rs as [|r rs IH]; intros Hrs; [done|].
  rewrite filter_cons. destruct (outcome_ok r) eqn:Hok.
  - rewrite decide_True by done.
    destruct (Hrs r) as (name & c & Hn & Ht & Hf); [by left|done|].
    rewrite (omap_cons_Some (zip_member folder files) r (name, c) rs)
      by (by apply zip_member_spec).
    rewrite (omap_cons_Some outcome_name r name _ Hn), fmap_cons, IH; [done|].
    intros r' Hr'. apply Hrs. by right.
  - rewrite decide_False by congruence.
    assert (zip_member folder files r = None) as Hnone.
    { destruct (zip_member folder files r) as [[name data]|] eqn:E; [|done].
      apply zip_member_spec in E as (? & _). congruence. }
    simpl. rewrite Hnone. apply IH. intros r' Hr'. apply Hrs. by right.
Qed.

(** X15. The archive, built from the disk as the run left it, is offered
    exactly when there is a success; it then holds one member per success,
    named by its file name and in the order of [results], and the bytes of
    each member are what its download wrote. *)
Theorem archive_holds_every_success completion w st :
  writes w = [] → NoDup completion →
  Forall (λ i, i < length unique_urls)%nat completion →
  start_download L net store unique_urls folder start_index timeout max_retries
    completion w = Some st →
  match zip_download (finish folder st) with
  | Some members =>
      0 < succ (results st)
      ∧ members.*1
        = omap outcome_name (filter (λ r, outcome_ok r = true) (results st))
      ∧ ∀ name data, (name, data) ∈ members →
          (Py.path_join folder name, data) ∈ writes (disk st)
  | None => succ (results st) = 0
  end.
Proof.
  intros Hw Hnd Hall Hst. unfold finish. cbn [zip_download].
  destruct (Z.ltb_spec 0 (succ (results st))) as [Hpos|Hzero];
    [|unfold succ in *; lia].
  revert Hpos. rewrite (start_download_fold _ _ _ Hst).
  destruct (run_invariant w completion Hw Hnd Hall)
    as (_ & _ & Hc & _ & _ & He & _).
  intros Hpos. split_and!; [done| |].
  - apply build_zip_names. intros r Hr Hok.
    destruct (He r Hr Hok) as (name & c & Hn & Ht & Hin).
    exists name, c. split_and!; [done|done|by apply Hc].
  - intros name data (r & Hr & Hm)%list_elem_of_omap.
    apply zip_member_spec in Hm as (Hok & Hn & _ & Hf).
    destruct (He r Hr Hok) as (name' & c & Hn' & _ & Hin).
    assert (name' = name) as -> by congruence.
    apply Hc in Hin as Hf'. by assert (c = data) as -> by congruence.
Qed.

End aggregate.

Section report.

Context (L : pylibs) (net : nat → Z → get_result).
Context (store : nat → Z → write_result).
Context (folder : string) (start_index timeout max_retries : Z).

(** X16. The table of the failed links can be fed back: for a run over
    the final list of a table, the failure table is offered exactly when
    there is a failure, and its own final list is the list of the failed
    links, in the order of their failure. *)
Theorem failure_table_round_trip df completion w st :
  completion ≡ₚ seq 0 (length (unique_urls df)) →
  start_download L net store (unique_urls df) folder start_index timeout max_retries
    completion w = Some st →
  match csv_download (finish folder st) with
  | Some table =>
      0 < fail (results st) ∧ unique_urls table = failed_links (results st)
  | None => fail (results st) = 0
  end.
Proof.
  intros Hperm Hst. unfold finish. cbn [csv_download].
  destruct (Z.ltb_spec 0 (fail (results st))) as [Hpos|Hzero];
    [|unfold fail in *; lia].
  split; [done|].
  destruct (unique_urls_links df) as [Hnd Hl].
  assert ((outcome_url <$> results st) ≡ₚ unique_urls df) as Hurls.
  { rewrite (start_download_results _ _ _ _ _ _ _ _ _ _ _ Hst), outcome_urls.
    - by rewrite Hperm, omap_lookup_all.
    - apply Forall_forall. intros i. rewrite Hperm, elem_of_seq. lia. }
  destruct (partition_by_flag (results st)) as [_ Hpart].
  rewrite <-Hurls, <-Hpart in Hnd.
  apply unique_urls_of_links.
  - by apply NoDup_app in Hnd as (_ & _ & ?).
  - apply Forall_forall. intros u Hu.
    apply (proj1 (Forall_forall _ _) Hl). rewrite <-Hurls, <-Hpart.
    apply elem_of_app. by right.
Qed.

(** X17. Nothing to download: the handler stops at the warning of line
    128, without any request, exactly when no cell of the table, trimmed,
    passes the prefix test. *)
Theorem no_links_no_run df completion w :
  start_download L net store (unique_urls df) folder start_index timeout max_retries
    completion w = None
  ↔ ∀ v, v ∈ column_major df → is_link (Py.strip v) = false.
Proof.
  assert (unique_urls df = []
          ↔ ∀ v, v ∈ column_major df → is_link (Py.strip v) = false) as <-.
  { split.
    - intros Hnil v Hv. destruct (is_link (Py.strip v)) eqn:Hl; [|done].
      assert (Py.strip v ∈ unique_urls df) as Hin; [|by rewrite Hnil in Hin;
        apply elem_of_nil in Hin].
      rewrite unique_urls_first_occurrences, first_occurrences_elem.
      apply list_elem_of_filter. split; [done|]. by apply list_elem_of_fmap_2.
    - intros Hno. apply elem_of_nil_inv. intros u.
      rewrite unique_urls_first_occurrences, first_occurrences_elem.
      rewrite list_elem_of_filter, list_elem_of_fmap.
      intros [Hl (v & -> & Hv)]. rewrite (Hno v Hv) in Hl. done. }
  unfold start_download. by destruct (unique_urls df).
Qed.

End report.

(** X18. Numbering goes on where it stopped: dispatching [l1 ++ l2] from
    [S] submits the calls of [l1] from [S] followed by the calls of [l2]
    from [S + len(l1)], and leaves the counter where dispatching [l2]
    alone from there leaves it. *)
Theorem numbering_continues l1 l2 start_index :
  submitted (dispatch (l1 ++ l2) start_index)
  = submitted (dispatch l1 start_index)
    ++ submitted (dispatch l2 (start_index + Z.of_nat (length l1)))
  ∧ counter (dispatch (l1 ++ l2) start_index)
    = counter (dispatch l2 (start_index + Z.of_nat (length l1))).
Proof.
  destruct (dispatch_spec (l1 ++ l2) start_index) as (-> & -> & _).
  destruct (dispatch_spec l1 start_index) as (_ & -> & _).
  destruct (dispatch_spec l2 (start_index + Z.of_nat (length l1))) as (-> & -> & _).
  split; [|rewrite length_app; lia].
  rewrite imap_app. f_equal. apply imap_ext. intros i u _. simpl.
  do 3 f_equal. lia.
Qed.

(** X11 on the three links, completing in the order third, first, second. *)
Lemma results_follow_completion_witness :
  Forall (λ i, i < length Sample.links)%nat [2; 0; 1]%nat
  ∧ ∃ st,
      start_download Sample.libs Sample.net Sample.store Sample.links "out" 5 20 0
        [2; 0; 1]%nat Sample.empty_world = Some st
      ∧ outcome_url <$> results st
        = omap (λ i, Sample.links !! i) [2; 0; 1]%nat
      ∧ length (results st) = length [2; 0; 1]%nat.
Proof.
  assert (Forall (λ i, i < length Sample.links)%nat [2; 0; 1]%nat) as Hall
    by (by apply (bool_decide_unpack _)).
  split; [exact Hall|]. eexists. split; [reflexivity|].
  apply (results_follow_completion Sample.libs Sample.net Sample.store
      Sample.links "out"
           5 20 0 [2; 0; 1]%nat Sample.empty_world); [exact Hall|reflexivity].
Defined.

(** X12 on the same run. *)
Lemma progress_and_log_in_step_witness :
  [2; 0; 1]%nat ≡ₚ seq 0 (length Sample.links)
  ∧ ∃ st,
      start_download Sample.libs Sample.net Sample.store Sample.links "out" 5 20 0
        [2; 0; 1]%nat Sample.empty_world = Some st
      ∧ log_lines st
        = ["OK: http://a/3 -> bill 7.jpg"; "OK: http://a/1.png -> bill 5.jpg";
           "FAIL: http://a/2 -> HTTP 404"]
      ∧ done st = Z.of_nat (length Sample.links)
      ∧ done st = Z.of_nat (length (results st))
      ∧ log_lines st = log_line <$> results st.
Proof.
  assert ([2; 0; 1]%nat ≡ₚ seq 0 (length Sample.links)) as Hperm
    by (by apply (bool_decide_unpack _)).
  split; [exact Hperm|]. eexists. split; [reflexivity|]. split; [reflexivity|].
  apply (progress_and_log_in_step Sample.libs Sample.net Sample.store Sample.links "out"
           5 20 0 [2; 0; 1]%nat Sample.empty_world); [exact Hperm|reflexivity].
Defined.


(** X14 on three links with the futures completing in the order third,
    first, second and no retries: the second link meets a 404, and the
    disk is full when the third is written, which leaves the first two
    bytes of its file and a failure; one file is written in full. *)
Lemma every_path_written_once_witness :
  writes Sample.empty_world = []
  ∧ NoDup [2; 0; 1]%nat
  ∧ Forall (λ i, i < length Sample.links)%nat [2; 0; 1]%nat
  ∧ ∃ st,
      start_download Sample.libs Sample.net Sample.store_full_once Sample.links
        "out" 5 20 0 [2; 0; 1]%nat Sample.empty_world = Some st
      ∧ writes (disk st) = [("out/bill 5.jpg", Sample.jpeg_bytes)]
      ∧ files (disk st) !! "out/bill 7.jpg" = Some [Byte.xff; Byte.xd8]
      ∧ NoDup (writes (disk st)).*1
      ∧ (∀ p c, (p, c) ∈ writes (disk st) → files (disk st) !! p = Some c)
      ∧ (∀ p, (∀ i, i ∈ [2; 0; 1]%nat → ¬ path_of_link "out" 5 i p) →
              files (disk st) !! p = files Sample.empty_world !! p)
      ∧ ((∀ i k, partial (Sample.store_full_once i k) = false) →
         ∀ p, p ∉ (writes (disk st)).*1 →
              files (disk st) !! p = files Sample.empty_world !! p)
      ∧ Z.of_nat (length (writes (disk st))) = succ (results st).
Proof.
  assert (NoDup [2; 0; 1]%nat) as Hnd by (by apply (bool_decide_unpack _)).
  assert (Forall (λ i, i < length Sample.links)%nat [2; 0; 1]%nat) as Hall
    by (by apply (bool_decide_unpack _)).
  split; [reflexivity|]. split; [exact Hnd|]. split; [exact Hall|].
  eexists. split; [reflexivity|]. split; [reflexivity|]. split; [reflexivity|].
  apply (every_path_written_once Sample.libs Sample.net Sample.store_full_once
           Sample.links "out" 5 20 0 [2; 0; 1]%nat Sample.empty_world);
    [reflexivity|exact Hnd|exact Hall|reflexivity].
Defined.

(** X15 on the same run: an archive of two members. *)
Lemma archive_holds_every_success_witness :
  writes Sample.empty_world = []
  ∧ NoDup [2; 0; 1]%nat
  ∧ Forall (λ i, i < length Sample.links)%nat [2; 0; 1]%nat
  ∧ ∃ st,
      start_download Sample.libs Sample.net Sample.store Sample.links "out" 5 20 0
        [2; 0; 1]%nat Sample.empty_world = Some st
      ∧ zip_download (finish "out" st)
        = Some [("bill 7.jpg", Sample.jpeg_bytes); ("bill 5.jpg", Sample.jpeg_bytes)]
      ∧ match zip_download (finish "out" st) with
        | Some members =>
            0 < succ (results st)
            ∧ members.*1
              = omap outcome_name
                  (filter (λ r, outcome_ok r = true) (results st))
            ∧ ∀ name data, (name, data) ∈ members →
                (Py.path_join "out" name, data) ∈ writes (disk st)
        | None => succ (results st) = 0
        end.
Proof.
  assert (NoDup [2; 0; 1]%nat) as Hnd by (by apply (bool_decide_unpack _)).
  assert (Forall (λ i, i < length Sample.links)%nat [2; 0; 1]%nat) as Hall
    by (by apply (bool_decide_unpack _)).
  split; [reflexivity|]. split; [exact Hnd|]. split; [exact Hall|].
  eexists. split; [reflexivity|]. split; [reflexivity|].
  apply (archive_holds_every_success Sample.libs Sample.net Sample.store
      Sample.links "out"
           5 20 0 [2; 0; 1]%nat Sample.empty_world);
    [reflexivity|exact Hnd|exact Hall|reflexivity].
Defined.

(** X16 on the table of the three links, the second of which fails. *)
Lemma failure_table_round_trip_witness :
  [2; 0; 1]%nat ≡ₚ seq 0 (length (unique_urls Sample.links_table))
  ∧ ∃ st,
      start_download Sample.libs Sample.net Sample.store (unique_urls
          Sample.links_table)
        "out" 5 20 0 [2; 0; 1]%nat Sample.empty_world = Some st
      ∧ csv_download (finish "out" st)
        = Some [Column "failed_url" [CellText "http://a/2"]]
      ∧ match csv_download (finish "out" st) with
        | Some table =>
            0 < fail (results st)
            ∧ unique_urls table = failed_links (results st)
        | None => fail (results st) = 0
        end.
Proof.
  assert ([2; 0; 1]%nat ≡ₚ seq 0 (length (unique_urls Sample.links_table)))
    as Hperm by (by apply (bool_decide_unpack _)).
  split; [exact Hperm|]. eexists. split; [reflexivity|]. split; [reflexivity|].
  apply (failure_table_round_trip Sample.libs Sample.net Sample.store "out" 5 20 0
           Sample.links_table [2; 0; 1]%nat Sample.empty_world);
    [exact Hperm|reflexivity].
Defined.
